(** * Custom URL decomposition (db/custom_api/custom_api.py)

    A shallow embedding of the token extraction pipeline
    ([TokenHelper], [InnerPath], [CustomGET]) and of the datapoint store
    contract exercised by tests/test_queries.py, followed by the
    properties of the specification that concern them.

    Conventions of the embedding.
    - Python [str] values are [string]s of 8-bit characters; the
      predicates [isdigit] and [strip] are the ASCII restrictions of
      Python's (code points below 128).
    - A raised exception is the [Raise] case of [result]; the exception
      classes are the constructors of [exn].
    - [int()] has the digit limit of CPython 3.11 and [strftime] renders
      the year as the C library does, without padding.
    - [TokenHelper.tokens] is one list object shared with
      [InnerPath.__init__]; it is the state of the monad [M]. *)

From Stdlib Require Import ZArith QArith Ascii String.
From stdpp Require Import base option list strings gmap.

Local Open Scope string_scope.
Local Open Scope Z_scope.
Local Open Scope list_scope.

(** ** Exceptions and results *)

(** The argument of [CustomError400(...)]: a list of values at
    custom_api.py:124, a message at custom_api.py:148 and :176. *)
Inductive payload : Type :=
  | Values (vs : list string)
  | Message (msg : string).

Inductive exn : Type :=
  | CustomError400 (p : payload)
  | ValueError
  | OverflowError
  | IndexError.

Inductive result (A : Type) : Type :=
  | Ok (a : A)
  | Raise (e : exn).
Arguments Ok {A} a.
Arguments Raise {A} e.

Definition rbind {A B} (r : result A) (k : A → result B) : result B :=
  match r with
  | Ok a => k a
  | Raise e => Raise e
  end.

#[global] Instance result_ret : MRet result := @Ok.
#[global] Instance result_bind : MBind result := λ A B k r, rbind r k.

(** Computations over the shared token list. *)
Definition M (A : Type) : Type := list string → result (A * list string).

Definition ret {A} (a : A) : M A := λ tokens, Ok (a, tokens).
Definition bind {A B} (m : M A) (k : A → M B) : M B :=
  λ tokens,
    match m tokens with
    | Ok (a, tokens') => k a tokens'
    | Raise e => Raise e
    end.
Definition raise {A} (e : exn) : M A := λ _, Raise e.
Definition get_tokens : M (list string) := λ tokens, Ok (tokens, tokens).
Definition lift {A} (r : result A) : M A :=
  λ tokens, match r with Ok a => Ok (a, tokens) | Raise e => Raise e end.

(** The monad laws are not needed below; the instances only give the
    [x ← m; k] and [m;; k] notations. *)
#[global] Instance M_ret : MRet M := @ret.
#[global] Instance M_bind : MBind M := λ A B k m, bind m k.

(** ** Python string primitives (ASCII) *)

Definition is_ascii_digit (c : ascii) : bool :=
  let n := nat_of_ascii c in (48 <=? n)%nat && (n <=? 57)%nat.

(** ASCII characters for which [str.isspace] holds: TAB, LF, VT, FF, CR,
    FS, GS, RS, US and SPACE. *)
Definition is_space (c : ascii) : bool :=
  let n := nat_of_ascii c in
  ((9 <=? n)%nat && (n <=? 13)%nat) || ((28 <=? n)%nat && (n <=? 32)%nat).

Fixpoint all_digits (s : string) : bool :=
  match s with
  | EmptyString => true
  | String c s' => is_ascii_digit c && all_digits s'
  end.

(** [str.isdigit()]: at least one character and every character a digit. *)
Definition isdigit (s : string) : bool :=
  match s with
  | EmptyString => false
  | _ => all_digits s
  end.

Fixpoint lstrip (s : string) : string :=
  match s with
  | EmptyString => EmptyString
  | String c s' => if is_space c then lstrip s' else s
  end.

Fixpoint rstrip (s : string) : string :=
  match s with
  | EmptyString => EmptyString
  | String c s' =>
      match rstrip s' with
      | EmptyString => if is_space c then EmptyString else String c EmptyString
      | r => String c r
      end
  end.

(** [str.strip()] with no argument. *)
Definition strip (s : string) : string := rstrip (lstrip s).

(** [str.split(sep)] for a one-character separator: never empty, and
    empty segments are kept. *)
Fixpoint split (sep : ascii) (s : string) : list string :=
  match s with
  | EmptyString => [EmptyString]
  | String c s' =>
      if decide (c = sep) then EmptyString :: split sep s'
      else match split sep s' with
           | seg :: segs => String c seg :: segs
           | [] => [String c EmptyString]
           end
  end.

(** Truthiness of [None], of a [str] and of a [list]. *)
Definition truthy (o : option string) : bool :=
  match o with
  | Some (String _ _) => true
  | _ => false
  end.

Definition digit_value (c : ascii) : Z := Z.of_nat (nat_of_ascii c) - 48.

Fixpoint int_acc (acc : Z) (s : string) : result Z :=
  match s with
  | EmptyString => Ok acc
  | String c s' =>
      if is_ascii_digit c then int_acc (10 * acc + digit_value c) s'
      else Raise ValueError
  end.

(** What reaches [int()] in this module is a [str] that passed [isdigit]
    or an [int] attribute of [date.today()]. *)
Inductive pyval : Type :=
  | PyStr (s : string)
  | PyInt (z : Z).

(** [sys.get_int_max_str_digits()], the default limit on the length of a
    decimal string that [int()] converts. *)
Definition MAX_STR_DIGITS : Z := 4300.

(** [int(x)] on unsigned decimal literals and on integers; any other
    string is answered with [ValueError] here. A literal of more than
    [MAX_STR_DIGITS] digits raises [ValueError] too. *)
Definition int (x : pyval) : result Z :=
  match x with
  | PyInt z => Ok z
  | PyStr EmptyString => Raise ValueError
  | PyStr s =>
      if MAX_STR_DIGITS <? Z.of_nat (String.length s) then Raise ValueError
      else int_acc 0 s
  end.

(** ** datetime.date *)

Record date : Type := mkdate { year : Z; month : Z; day : Z }.

Definition is_leap (y : Z) : bool :=
  (y mod 4 =? 0) && (negb (y mod 100 =? 0) || (y mod 400 =? 0)).

Definition days_in_month (y m : Z) : Z :=
  if m =? 2 then (if is_leap y then 29 else 28)
  else if (m =? 4) || (m =? 6) || (m =? 9) || (m =? 11) then 30
  else 31.

Definition MINYEAR : Z := 1.
Definition MAXYEAR : Z := 9999.

Definition fits_c_int (z : Z) : bool := (- 2 ^ 31 <=? z) && (z <=? 2 ^ 31 - 1).

Definition valid_date (y m d : Z) : bool :=
  (MINYEAR <=? y) && (y <=? MAXYEAR) &&
  (1 <=? m) && (m <=? 12) &&
  (1 <=? d) && (d <=? days_in_month y m).

(** [date(year=y, month=m, day=d)]: [OverflowError] when a component does
    not fit a C int, [ValueError] when it is out of range. *)
Definition date_new (y m d : Z) : result date :=
  if negb (fits_c_int y && fits_c_int m && fits_c_int d) then Raise OverflowError
  else if valid_date y m d then Ok (mkdate y m d)
  else Raise ValueError.

Definition digit_char (z : Z) : ascii := ascii_of_nat (Z.to_nat (48 + z mod 10)).

(** The [w] lowest decimal digits of [z], most significant first. *)
Fixpoint zero_pad (w : nat) (z : Z) : string :=
  match w with
  | O => EmptyString
  | S w' => zero_pad w' (z / 10) +:+ String (digit_char z) EmptyString
  end.

(** A decimal string without its leading zeros, the last digit kept. *)
Fixpoint drop_zeros (s : string) : string :=
  match s with
  | String c (String _ _ as s') =>
      if bool_decide (c = "0"%char) then drop_zeros s' else s
  | _ => s
  end.

(** [%Y] as the C library renders it: the year in decimal, not padded
    (years run from [MINYEAR] to [MAXYEAR], four digits at most). *)
Definition year_digits (y : Z) : string := drop_zeros (zero_pad 4 y).

(** [d.strftime('%Y-%m-%d')]. *)
Definition strftime (d : date) : string :=
  year_digits (year d) +:+ "-" +:+ zero_pad 2 (month d) +:+ "-" +:+ zero_pad 2 (day d).

(** ** Module constants *)

Definition ALLOWED_FREQUENCIES : list string := ["d"; "w"; "m"; "q"; "a"].
Definition ALLOWED_REAL_RATES : list string := ["rog"; "yoy"; "base"].
Definition ALLOWED_AGGREGATORS : list string := ["eop"; "avg"].
Definition ALLOWED_FINALISERS : list string := ["csv"; "json"].

(** ** class TokenHelper *)

Module TokenHelper.

(** [self.tokens.pop(self.tokens.index(value))] *)
Definition _pop (value : string) : M unit :=
  λ tokens,
    match list_find (λ t, t = value) tokens with
    | Some (i, _) => Ok (tt, delete i tokens)
    | None => Raise ValueError
    end.

(** [integers[i]] *)
Definition item (l : list string) (i : nat) : M string :=
  match l !! i with
  | Some x => ret x
  | None => raise IndexError
  end.

Definition _find_years : M (option string * option string) :=
  tokens ← get_tokens;
  let integers := filter (λ x, Is_true (isdigit x)) tokens in
  start ← (if bool_decide (length integers ∈ [1%nat; 2%nat])
           then x ← item integers 0; _pop x;; ret (Some x)
           else ret None);
  end_ ← (if bool_decide (length integers = 2%nat)
          then x ← item integers 1; _pop x;; ret (Some x)
          else ret None);
  ret (start, end_).

Definition _as_date (year : pyval) (month day : Z) : result string :=
  rbind (int year) (λ y,
  rbind (date_new y month day) (λ d,
  Ok (strftime d))).

(** [today] is the value of [date.today()]. The dictionary is a
    [gmap] from key to rendered date. *)
Definition get_dates_dict (today : date) : M (gmap string string) :=
  '(start_year, end_year) ← _find_years;
  let result : gmap string string := ∅ in
  result ← (if truthy start_year
            then s ← lift (_as_date (PyStr (default "" start_year)) 1 1);
                 ret (<["start_date" := s]> result)
            else ret result);
  result ← (if truthy end_year
            then s ← lift (_as_date (PyStr (default "" end_year)) 12 31);
                 ret (<["end_date" := s]> result)
            else s ← lift (_as_date (PyInt (year today)) (month today) (day today));
                 ret (<["end_date" := s]> result));
  ret result.

Definition _find_one (allowed_values : list string) : M (option string) :=
  tokens ← get_tokens;
  let values_found := filter (λ p, p ∈ tokens) allowed_values in
  match values_found with
  | [] => ret None
  | [x] => _pop x;; ret (Some x)
  | _ => raise (CustomError400 (Values values_found))
  end.

Definition fin : M (option string) := _find_one ALLOWED_FINALISERS.
Definition rate : M (option string) := _find_one ALLOWED_REAL_RATES.
Definition agg : M (option string) := _find_one ALLOWED_AGGREGATORS.
End TokenHelper.

(** ** class InnerPath *)

Module InnerPath.

Record t : Type := mk {
  dates : gmap string string;
  fin : option string;
  rate : option string;
  agg : option string;
  unit : option string
}.

(** custom_api.py:139,
    [[token.strip() for token in inner_path.split('/') if token]]:
    the condition is tested on the segment, [strip] is applied after. *)
Definition tokenize (inner_path : string) : list string :=
  strip <$> filter (λ token, token ≠ "") (split "/" inner_path).

(** The body of [__init__] from line 140 on, run on the list [tokens]
    that [helper] shares with it. *)
Definition init (today : date) : M t :=
  dates ← TokenHelper.get_dates_dict today;
  fin ← TokenHelper.fin;
  rate ← TokenHelper.rate;
  agg ← TokenHelper.agg;
  if truthy rate && truthy agg
  then raise (CustomError400 (Message "Cannot combine rate and aggregation."))
  else
    tokens ← get_tokens;
    let unit := match tokens with
                | tok :: _ => Some tok
                | [] => if truthy rate then rate else None
                end in
    ret (mk dates fin rate agg unit).

Definition __init__ (today : date) (inner_path : string) : result t :=
  '(self, _) ← init today (tokenize inner_path); Ok self.

Definition get_unit (self : t) : option string := unit self.
Definition get_dates (self : t) : gmap string string := dates self.
End InnerPath.

(** ** class CustomGET *)

Module CustomGET.

Definition make_name (varname : string) (unit : option string) : string :=
  if truthy unit then varname +:+ "_" +:+ default "" unit else varname.

Definition make_freq (freq : string) : result string :=
  if bool_decide (freq ∉ ALLOWED_FREQUENCIES)
  then Raise (CustomError400 (Message ("Frequency <" +:+ freq +:+ "> is not valid")))
  else Ok freq.

(** The object built by [__init__] is its [params] dictionary;
    [params.update(dates_dict)] is the union that prefers [dates_dict]. *)
Definition __init__ (today : date) (domain varname freq inner_path : string)
  : result (gmap string string) :=
  ip ← InnerPath.__init__ today inner_path;
  f ← make_freq freq;
  let params : gmap string string := {["freq" := f]} in
  let params := <["name" := make_name varname (InnerPath.get_unit ip)]> params in
  let dates_dict := InnerPath.get_dates ip in
  Ok (dates_dict ∪ params).
End CustomGET.

(** ** Datapoint store (db.api.queries, used by tests/test_queries.py) *)

#[global] Instance date_eq_dec : EqDecision date.
Proof. solve_decision. Defined.

Module Store.
Section Store.

(** The type of [value]: a number that is stored and read back, never
    computed with. *)
Context {Value : Type}.

Record Datapoint : Type := mkDatapoint {
  dp_date : date;
  dp_freq : string;
  dp_name : string;
  dp_value : Value
}.

(** The natural key [(freq, name, date)]. *)
Definition key (d : Datapoint) : string * string * date :=
  (dp_freq d, dp_name d, dp_date d).

(** The rows with a given key. *)
Definition records_with_key (k : string * string * date)
    (rows : list Datapoint) : list Datapoint :=
  filter (λ r, key r = k) rows.

(** The uniqueness constraint on [(freq, name, date)]. *)
Definition unique_keys (rows : list Datapoint) : Prop :=
  NoDup (key <$> rows).

(** Modelled from the spec: [db.api.queries.upsert] is not part of the
    sources at hand (only its tests are). Section 4.4: if a record with
    matching [(freq, name, date)] exists, its [value] is replaced with
    the incoming value, the key fields staying as they are; otherwise a
    new record is inserted. The table is the list of its rows. *)
Fixpoint upsert_rows (d : Datapoint) (rows : list Datapoint) : list Datapoint :=
  match rows with
  | [] => [d]
  | r :: rows' =>
      if decide (key r = key d)
      then mkDatapoint (dp_date r) (dp_freq r) (dp_name r) (dp_value d) :: rows'
      else r :: upsert_rows d rows'
  end.

(** Modelled from the spec: [upsert(datapoint) -> Datapoint], section 2,
    as a state-passing function that returns the stored record and the
    new table. *)
Definition upsert (d : Datapoint) (rows : list Datapoint)
    : Datapoint * list Datapoint :=
  (d, upsert_rows d rows).

End Store.
Arguments Datapoint : clear implicits.
End Store.

(** ** Vocabulary of the properties *)

Abbreviation is_int := (λ x : string, Is_true (isdigit x)).
Abbreviation not_int := (λ x : string, ¬ Is_true (isdigit x)).

Definition non_integers (tokens : list string) : list string :=
  filter not_int tokens.

Ltac mstep :=
  repeat (cbv beta iota delta
            [mbind M_bind bind mret M_ret ret raise get_tokens lift
             TokenHelper.item]; simpl).

(** [date.today()] returns a date of the calendar. *)
Definition today_ok (today : date) : bool :=
  valid_date (year today) (month today) (day today).

Definition jan1 (y : Z) : string := strftime (mkdate y 1 1).
Definition dec31 (y : Z) : string := strftime (mkdate y 12 31).

(** The tokens of a sequence that belong to a category, in path order. *)
Definition members (allowed tokens : list string) : list string :=
  filter (λ tok, tok ∈ allowed) tokens.

(** The categories that admit one value per path. *)
Definition single_valued : list (list string) :=
  [ALLOWED_FINALISERS; ALLOWED_REAL_RATES; ALLOWED_AGGREGATORS].

(** The four extraction steps, in the order of [InnerPath.__init__], with
    the list they leave behind. *)
Definition extraction (today : date)
    : M (gmap string string * option string * option string * option string) :=
  dates ← TokenHelper.get_dates_dict today;
  fin ← TokenHelper.fin;
  rate ← TokenHelper.rate;
  agg ← TokenHelper.agg;
  ret (dates, fin, rate, agg).

(** Two member tokens of different value. *)
Definition ambiguous (allowed tokens : list string) : Prop :=
  ∃ a b, a ∈ members allowed tokens ∧ b ∈ members allowed tokens ∧ a ≠ b.

(** A token that year extraction selects names a year of the calendar. *)
Definition year_token_ok (tok : string) : Prop :=
  ∃ y, int (PyStr tok) = Ok y ∧ MINYEAR ≤ y ≤ MAXYEAR.

(** The one or two integer tokens that year extraction selects, if any,
    name years of the calendar. *)
Definition years_ok (tokens : list string) : Prop :=
  (length (filter is_int tokens) ≤ 2)%nat →
  Forall year_token_ok (filter is_int tokens).

Definition mutually_exclusive : exn :=
  CustomError400 (Message "Cannot combine rate and aggregation.").

(** What [_find_years] selects, as a function of the integer tokens. *)
Definition selected_years (integers : list string)
    : option string * option string :=
  match integers with
  | [a] => (Some a, None)
  | [a; b] => (Some a, Some b)
  | _ => (None, None)
  end.

(** The list that [_find_years] leaves. *)
Definition after_years (tokens : list string) : list string :=
  match filter is_int tokens with
  | [_] | [_; _] => non_integers tokens
  | _ => tokens
  end.

(** Two runs end the same way: the same exception, or results related
    by [R]. *)
Definition same_outcome {A} (R : A → A → Prop) (r r' : result A) : Prop :=
  match r, r' with
  | Ok a, Ok a' => R a a'
  | Raise e, Raise e' => e = e'
  | _, _ => False
  end.

(** [c in s] for a character [c]. *)
Fixpoint contains (c : ascii) (s : string) : bool :=
  match s with
  | EmptyString => false
  | String c' s' => bool_decide (c' = c) || contains c s'
  end.

(** Every character of [s] is [c]. *)
Fixpoint only_char (c : ascii) (s : string) : bool :=
  match s with
  | EmptyString => true
  | String c' s' => bool_decide (c' = c) && only_char c s'
  end.

(** The keys that [CustomGET.params] can hold. *)
Definition PARAM_KEYS : list string := ["freq"; "name"; "start_date"; "end_date"].

(** * Properties *)

(** ** The shared list: [_pop] *)

Lemma bind_unfold {A B} (m : M A) (k : A → M B) (tokens : list string) :
  (m ≫= k) tokens =
  match m tokens with
  | Ok (a, tokens') => k a tokens'
  | Raise e => Raise e
  end.
Proof. reflexivity. Qed.

(** [_pop value] deletes the first occurrence of [value] and nothing else. *)
Lemma pop_first_occurrence (value : string) (l1 l2 : list string) :
  value ∉ l1 →
  TokenHelper._pop value (l1 ++ value :: l2) = Ok (tt, l1 ++ l2).
Proof.
  intros Hnotin. unfold TokenHelper._pop.
  assert (Hfind : list_find (λ t, t = value) (l1 ++ value :: l2)
                  = Some (length l1, value)).
  { apply list_find_Some. split_and!.
    - by rewrite list_lookup_middle.
    - done.
    - intros j y Hj Hlt ->. apply Hnotin.
      rewrite lookup_app_l in Hj by done.
      by eapply list_elem_of_lookup_2. }
  rewrite Hfind. by rewrite delete_middle.
Qed.

Lemma pop_elem_of (value : string) (tokens : list string) :
  value ∈ tokens →
  ∃ l1 l2, tokens = l1 ++ value :: l2 ∧ (value ∉ l1) ∧
           TokenHelper._pop value tokens = Ok (tt, l1 ++ l2).
Proof.
  intros Hin. apply list_elem_of_split_l in Hin.
  destruct Hin as (l1 & l2 & -> & Hnotin).
  exists l1, l2. split_and!; [done..|]. by apply pop_first_occurrence.
Qed.

(** ** Year extraction *)

Lemma filter_nil_complement {A} (P : A → Prop) `{!∀ x, Decision (P x)} (l : list A) :
  filter P l = [] → filter (λ x, ¬ P x) l = l.
Proof.
  induction l as [|a l IH]; [done|].
  rewrite !filter_cons. destruct (decide (P a)) as [Ha|Ha]; [done|].
  intros Hnil. rewrite decide_True by done. by rewrite IH.
Qed.

(** Popping the first element that [filter P] keeps takes it out of the
    filtered list and leaves the complement as it was. *)
Lemma pop_filter_head (P : string → Prop) `{!∀ x, Decision (P x)}
    (tokens : list string) (x : string) (rest : list string) :
  filter P tokens = x :: rest →
  ∃ tokens', TokenHelper._pop x tokens = Ok (tt, tokens') ∧
             filter P tokens' = rest ∧
             filter (λ y, ¬ P y) tokens' = filter (λ y, ¬ P y) tokens.
Proof.
  intros Hf.
  assert (Hx : P x ∧ x ∈ tokens).
  { apply (list_elem_of_filter P). rewrite Hf. left. }
  destruct Hx as [HPx Hin].
  destruct (pop_elem_of x tokens Hin) as (l1 & l2 & -> & Hnotin & Hpop).
  exists (l1 ++ l2). split; [done|].
  rewrite !filter_app, filter_cons_True in Hf by done.
  rewrite !filter_app, (filter_cons_False (λ y, ¬ P y)) by tauto.
  destruct (filter P l1) as [|y ys] eqn:Hl1.
  - simpl in Hf. by inversion Hf.
  - exfalso. simpl in Hf. inversion Hf; subst y.
    apply Hnotin. eapply (list_elem_of_filter P). rewrite Hl1. left.
Qed.

Lemma find_years_none (tokens : list string) :
  filter is_int tokens = [] →
  TokenHelper._find_years tokens = Ok ((None, None), tokens).
Proof.
  intros H. unfold TokenHelper._find_years. mstep. rewrite H. reflexivity.
Qed.

Lemma find_years_one (tokens : list string) (y : string) :
  filter is_int tokens = [y] →
  TokenHelper._find_years tokens = Ok ((Some y, None), non_integers tokens).
Proof.
  intros H. unfold TokenHelper._find_years. mstep. rewrite H. mstep.
  destruct (pop_filter_head is_int tokens y [] H) as (t1 & Hpop & Hint & Hrest).
  rewrite Hpop. unfold non_integers. rewrite <- Hrest.
  by rewrite (filter_nil_complement is_int t1 Hint).
Qed.

Lemma find_years_two (tokens : list string) (y1 y2 : string) :
  filter is_int tokens = [y1; y2] →
  TokenHelper._find_years tokens = Ok ((Some y1, Some y2), non_integers tokens).
Proof.
  intros H. unfold TokenHelper._find_years. mstep. rewrite H. mstep.
  destruct (pop_filter_head is_int tokens y1 [y2] H) as (t1 & Hpop1 & Hint1 & Hrest1).
  destruct (pop_filter_head is_int t1 y2 [] Hint1) as (t2 & Hpop2 & Hint2 & Hrest2).
  rewrite Hpop1, Hpop2. unfold non_integers. rewrite <- Hrest1, <- Hrest2.
  by rewrite (filter_nil_complement is_int t2 Hint2).
Qed.

Lemma find_years_many (tokens : list string) :
  (2 < length (filter is_int tokens))%nat →
  TokenHelper._find_years tokens = Ok ((None, None), tokens).
Proof.
  intros H. unfold TokenHelper._find_years. mstep.
  destruct (filter is_int tokens) as [|a [|b [|c l]]]; simpl in H; try lia.
  reflexivity.
Qed.

(** ** Dates *)

Lemma valid_date_fits (y m d : Z) :
  valid_date y m d = true →
  fits_c_int y && fits_c_int m && fits_c_int d = true.
Proof.
  unfold valid_date, fits_c_int, MINYEAR, MAXYEAR.
  rewrite !andb_true_iff, !Z.leb_le.
  intros (((((? & ?) & ?) & ?) & ?) & Hd).
  assert (days_in_month y m ≤ 31).
  { unfold days_in_month.
    repeat match goal with
           | |- context [if ?b then _ else _] => destruct b
           end; lia. }
  change (2 ^ 31) with 2147483648. split_and!; lia.
Qed.

Lemma date_new_valid (y m d : Z) :
  valid_date y m d = true → date_new y m d = Ok (mkdate y m d).
Proof.
  intros H. unfold date_new.
  rewrite (valid_date_fits y m d H). simpl. by rewrite H.
Qed.

Lemma valid_jan1 (y : Z) : MINYEAR ≤ y ≤ MAXYEAR → valid_date y 1 1 = true.
Proof.
  unfold valid_date, days_in_month, MINYEAR, MAXYEAR. intros [? ?]. simpl.
  rewrite !andb_true_iff, !Z.leb_le. lia.
Qed.

Lemma valid_dec31 (y : Z) : MINYEAR ≤ y ≤ MAXYEAR → valid_date y 12 31 = true.
Proof.
  unfold valid_date, days_in_month, MINYEAR, MAXYEAR. intros [? ?]. simpl.
  rewrite !andb_true_iff, !Z.leb_le. lia.
Qed.

Lemma as_date_start (tok : string) (y : Z) :
  int (PyStr tok) = Ok y → MINYEAR ≤ y ≤ MAXYEAR →
  TokenHelper._as_date (PyStr tok) 1 1 = Ok (jan1 y).
Proof.
  intros Hint Hy. unfold TokenHelper._as_date. rewrite Hint. simpl.
  by rewrite (date_new_valid _ _ _ (valid_jan1 y Hy)).
Qed.

Lemma as_date_end (tok : string) (y : Z) :
  int (PyStr tok) = Ok y → MINYEAR ≤ y ≤ MAXYEAR →
  TokenHelper._as_date (PyStr tok) 12 31 = Ok (dec31 y).
Proof.
  intros Hint Hy. unfold TokenHelper._as_date. rewrite Hint. simpl.
  by rewrite (date_new_valid _ _ _ (valid_dec31 y Hy)).
Qed.

Lemma as_date_today (today : date) :
  today_ok today = true →
  TokenHelper._as_date (PyInt (year today)) (month today) (day today)
  = Ok (strftime today).
Proof.
  intros H. unfold TokenHelper._as_date. simpl.
  rewrite (date_new_valid _ _ _ H). by destruct today.
Qed.

Lemma isdigit_truthy (tok : string) :
  Is_true (isdigit tok) → truthy (Some tok) = true.
Proof. by destruct tok. Qed.

Lemma filter_head_holds {A} (P : A → Prop) `{!∀ x, Decision (P x)}
    (l : list A) (x : A) (rest : list A) :
  filter P l = x :: rest → P x.
Proof.
  intros Hf. assert (Hx : x ∈ filter P l) by (rewrite Hf; left).
  by apply list_elem_of_filter in Hx as [? _].
Qed.

(** [get_dates_dict] after [_find_years] has returned. *)
Lemma get_dates_dict_after (today : date) (tokens rest : list string)
    (start_year end_year : option string) :
  TokenHelper._find_years tokens = Ok ((start_year, end_year), rest) →
  TokenHelper.get_dates_dict today tokens =
    match (if truthy start_year
           then rbind (TokenHelper._as_date (PyStr (default "" start_year)) 1 1)
                  (λ s, Ok (<["start_date" := s]> (∅ : gmap string string)))
           else Ok ∅) with
    | Raise e => Raise e
    | Ok result =>
        match (if truthy end_year
               then TokenHelper._as_date (PyStr (default "" end_year)) 12 31
               else TokenHelper._as_date (PyInt (year today)) (month today) (day today)) with
        | Raise e => Raise e
        | Ok s => Ok (<["end_date" := s]> result, rest)
        end
    end.
Proof.
  intros H. unfold TokenHelper.get_dates_dict. mstep. rewrite H.
  destruct (truthy start_year); mstep.
  - destruct (TokenHelper._as_date _ 1 1); simpl; [|done].
    destruct (truthy end_year); mstep;
      by destruct (TokenHelper._as_date _ _ _).
  - destruct (truthy end_year); mstep;
      by destruct (TokenHelper._as_date _ _ _).
Qed.

Lemma dates_without_years (today : date) (tokens : list string) :
  today_ok today = true →
  filter is_int tokens = [] ∨ (2 < length (filter is_int tokens))%nat →
  TokenHelper.get_dates_dict today tokens
  = Ok (<["end_date" := strftime today]> ∅, tokens).
Proof.
  intros Ht Hints.
  assert (Hfy : TokenHelper._find_years tokens = Ok ((None, None), tokens)).
  { destruct Hints; [by apply find_years_none | by apply find_years_many]. }
  rewrite (get_dates_dict_after today _ _ _ _ Hfy). simpl.
  by rewrite (as_date_today today Ht).
Qed.

Lemma dates_with_start (today : date) (tokens : list string) (tok : string) (y : Z) :
  today_ok today = true →
  filter is_int tokens = [tok] →
  int (PyStr tok) = Ok y → MINYEAR ≤ y ≤ MAXYEAR →
  TokenHelper.get_dates_dict today tokens
  = Ok (<["end_date" := strftime today]> (<["start_date" := jan1 y]> ∅),
        non_integers tokens).
Proof.
  intros Ht Hints Hint Hy.
  rewrite (get_dates_dict_after today _ _ _ _ (find_years_one _ _ Hints)).
  rewrite (isdigit_truthy tok (filter_head_holds _ _ _ _ Hints)). simpl.
  rewrite (as_date_start tok y Hint Hy). simpl.
  by rewrite (as_date_today today Ht).
Qed.

Lemma dates_with_start_end (today : date) (tokens : list string)
    (tok1 tok2 : string) (y1 y2 : Z) :
  filter is_int tokens = [tok1; tok2] →
  int (PyStr tok1) = Ok y1 → MINYEAR ≤ y1 ≤ MAXYEAR →
  int (PyStr tok2) = Ok y2 → MINYEAR ≤ y2 ≤ MAXYEAR →
  TokenHelper.get_dates_dict today tokens
  = Ok (<["end_date" := dec31 y2]> (<["start_date" := jan1 y1]> ∅),
        non_integers tokens).
Proof.
  intros Hints Hint1 Hy1 Hint2 Hy2.
  rewrite (get_dates_dict_after today _ _ _ _ (find_years_two _ _ _ Hints)).
  assert (Is_true (isdigit tok1) ∧ Is_true (isdigit tok2)) as [H1 H2].
  { assert (Hin : ∀ x, x ∈ [tok1; tok2] → Is_true (isdigit x)).
    { intros x Hx. rewrite <- Hints in Hx.
      by apply list_elem_of_filter in Hx as [? _]. }
    split; apply Hin; [left | right; left]. }
  rewrite (isdigit_truthy tok1 H1), (isdigit_truthy tok2 H2). simpl.
  rewrite (as_date_start tok1 y1 Hint1 Hy1). simpl.
  by rewrite (as_date_end tok2 y2 Hint2 Hy2).
Qed.

(** Whatever dictionary and list [get_dates_dict] returns: the list is
    the given one, or the given one without its integer tokens, and the
    dictionary holds dates only. *)
Lemma get_dates_dict_inv (today : date) (tokens rest : list string)
    (d : gmap string string) :
  TokenHelper.get_dates_dict today tokens = Ok (d, rest) →
  (rest = tokens ∨ rest = non_integers tokens) ∧
  (∀ k, k ≠ "start_date" → k ≠ "end_date" → d !! k = None).
Proof.
  intros H.
  assert (Hfy : ∃ sy ey r, TokenHelper._find_years tokens = Ok ((sy, ey), r) ∧
                           (r = tokens ∨ r = non_integers tokens)).
  { destruct (filter is_int tokens) as [|a [|b [|c l]]] eqn:Hints.
    - eexists _, _, _. split; [by apply find_years_none | by left].
    - eexists _, _, _. split; [by apply find_years_one | by right].
    - eexists _, _, _. split; [by apply find_years_two | by right].
    - eexists _, _, _. split; [|by left].
      apply find_years_many. rewrite Hints. simpl. lia. }
  destruct Hfy as (sy & ey & r & Hfy & Hr).
  rewrite (get_dates_dict_after today _ _ _ _ Hfy) in H.
  destruct (truthy sy).
  - destruct (TokenHelper._as_date _ 1 1) as [s|]; simpl in H; [|done].
    destruct (if truthy ey then _ else _) as [s'|]; [|done].
    inversion H; subst. split; [done|].
    intros k H1 H2. by rewrite !lookup_insert_ne.
  - destruct (if truthy ey then _ else _) as [s'|]; [|done].
    inversion H; subst. split; [done|].
    intros k H1 H2. by rewrite lookup_insert_ne.
Qed.

(** ** Single-valued categories: [_find_one] *)

Lemma find_one_none (allowed tokens : list string) :
  filter (λ p, p ∈ tokens) allowed = [] →
  TokenHelper._find_one allowed tokens = Ok (None, tokens).
Proof.
  intros H. unfold TokenHelper._find_one. mstep. by rewrite H.
Qed.

Lemma find_one_single (allowed tokens : list string) (x : string) :
  filter (λ p, p ∈ tokens) allowed = [x] →
  ∃ l1 l2, tokens = l1 ++ x :: l2 ∧ (x ∉ l1) ∧
           TokenHelper._find_one allowed tokens = Ok (Some x, l1 ++ l2).
Proof.
  intros H.
  assert (Hin : x ∈ tokens) by exact (filter_head_holds _ _ _ _ H).
  destruct (pop_elem_of x tokens Hin) as (l1 & l2 & Heq & Hnotin & Hpop).
  exists l1, l2. split_and!; [done..|].
  unfold TokenHelper._find_one. mstep. rewrite H. mstep. by rewrite Hpop.
Qed.

Lemma find_one_ambiguous (allowed tokens : list string) :
  (2 ≤ length (filter (λ p, p ∈ tokens) allowed))%nat →
  TokenHelper._find_one allowed tokens
  = Raise (CustomError400 (Values (filter (λ p, p ∈ tokens) allowed))).
Proof.
  intros H. unfold TokenHelper._find_one. mstep.
  destruct (filter (λ p, p ∈ tokens) allowed) as [|a [|b l]];
    simpl in H; try lia.
  reflexivity.
Qed.

(** The three outcomes of [_find_one], read off its result. *)
Lemma find_one_ok_inv (allowed tokens rest : list string) (o : option string) :
  TokenHelper._find_one allowed tokens = Ok (o, rest) →
  (o = None ∧ rest = tokens ∧ ∀ p, p ∈ allowed → p ∉ tokens) ∨
  (∃ x l1 l2, o = Some x ∧ x ∈ allowed ∧ tokens = l1 ++ x :: l2 ∧
              (x ∉ l1) ∧ rest = l1 ++ l2 ∧
              ∀ p, p ∈ allowed → p ∈ tokens → p = x).
Proof.
  intros H.
  destruct (filter (λ p, p ∈ tokens) allowed) as [|a [|b l]] eqn:Hf.
  - rewrite (find_one_none _ _ Hf) in H. inversion H; subst.
    left. split_and!; [done..|].
    intros p Hp Hin. eapply (filter_nil_not_elem_of _ _ p Hf); done.
  - destruct (find_one_single _ _ _ Hf) as (l1 & l2 & Heq & Hnotin & Hrun).
    rewrite Hrun in H. inversion H; subst o rest.
    right. exists a, l1, l2. split_and!; try done.
    + assert (Ha : a ∈ filter (λ p, p ∈ tokens) allowed) by (rewrite Hf; left).
      by apply list_elem_of_filter in Ha as [_ ?].
    + intros p Hp Hin.
      assert (Hpf : p ∈ filter (λ p, p ∈ tokens) allowed).
      { by apply list_elem_of_filter. }
      rewrite Hf in Hpf. by apply list_elem_of_singleton in Hpf.
  - rewrite find_one_ambiguous in H; [done|]. rewrite Hf. simpl. lia.
Qed.

Lemma find_one_raise_inv (allowed tokens : list string) (e : exn) :
  TokenHelper._find_one allowed tokens = Raise e →
  e = CustomError400 (Values (filter (λ p, p ∈ tokens) allowed)) ∧
  (2 ≤ length (filter (λ p, p ∈ tokens) allowed))%nat.
Proof.
  intros H.
  destruct (filter (λ p, p ∈ tokens) allowed) as [|a [|b l]] eqn:Hf.
  - by rewrite (find_one_none _ _ Hf) in H.
  - destruct (find_one_single _ _ _ Hf) as (l1 & l2 & _ & _ & Hrun).
    by rewrite Hrun in H.
  - rewrite find_one_ambiguous in H by (rewrite Hf; simpl; lia).
    rewrite Hf in H. inversion H. split; [done|]. simpl. lia.
Qed.

Lemma single_valued_NoDup (allowed : list string) :
  allowed ∈ single_valued → NoDup allowed.
Proof.
  unfold single_valued. rewrite !elem_of_cons, elem_of_nil.
  intros [-> | [-> | [-> | []]]]; compute_done.
Qed.

Lemma values_found_members (allowed tokens : list string) (p : string) :
  p ∈ filter (λ p, p ∈ tokens) allowed ↔ p ∈ members allowed tokens.
Proof.
  unfold members. rewrite !list_elem_of_filter. tauto.
Qed.

Lemma NoDup_all_equal {A} (l : list A) (x : A) :
  NoDup l → x ∈ l → (∀ y, y ∈ l → y = x) → l = [x].
Proof.
  intros Hnd Hin Hall. destruct l as [|a [|b l]].
  - by apply elem_of_nil in Hin.
  - f_equal. apply Hall. left.
  - exfalso. apply NoDup_cons in Hnd as [Hnotin _]. apply Hnotin.
    rewrite (Hall a), (Hall b); [left | right; left | left].
Qed.

(** When every member token is an occurrence of one value, that value is
    found and its first occurrence leaves the list. *)
Lemma find_one_repeated (allowed tokens : list string) (x : string) :
  NoDup allowed →
  x ∈ members allowed tokens →
  (∀ y, y ∈ members allowed tokens → y = x) →
  ∃ l1 l2, tokens = l1 ++ x :: l2 ∧ (x ∉ l1) ∧
           TokenHelper._find_one allowed tokens = Ok (Some x, l1 ++ l2).
Proof.
  intros Hnd Hin Hall. apply find_one_single.
  apply NoDup_all_equal.
  - by apply NoDup_filter.
  - by apply (values_found_members allowed tokens).
  - intros y Hy. by apply Hall, (values_found_members allowed tokens).
Qed.

(** ** C1 *)

(** C1, as the code has it. For a category among finaliser, rate and
    aggregator: with no member token, [_find_one] returns [None] and
    leaves the list; with exactly one member token, it returns that token
    and removes it, and nothing else; with two member tokens of different
    value, it raises [CustomError400] on a list without repetition that
    holds exactly the values of the member tokens. *)
Theorem C1_find_one_by_distinct_values (allowed tokens : list string) :
  allowed ∈ single_valued →
  (members allowed tokens = [] →
     TokenHelper._find_one allowed tokens = Ok (None, tokens)) ∧
  (∀ tok, members allowed tokens = [tok] →
     ∃ l1 l2, tokens = l1 ++ tok :: l2 ∧
              TokenHelper._find_one allowed tokens = Ok (Some tok, l1 ++ l2)) ∧
  ((∃ a b, a ∈ members allowed tokens ∧ b ∈ members allowed tokens ∧ a ≠ b) →
     ∃ vs, TokenHelper._find_one allowed tokens
           = Raise (CustomError400 (Values vs)) ∧
           NoDup vs ∧
           ∀ p, p ∈ vs ↔ p ∈ members allowed tokens).
Proof.
  intros Hcat. pose proof (single_valued_NoDup allowed Hcat) as Hnd.
  split_and!.
  - intros Hm. apply find_one_none.
    destruct (filter (λ p, p ∈ tokens) allowed) as [|a l] eqn:Hf; [done|].
    assert (Ha : a ∈ members allowed tokens).
    { apply (values_found_members allowed tokens). rewrite Hf. left. }
    rewrite Hm in Ha. by apply elem_of_nil in Ha.
  - intros tok Hm.
    destruct (find_one_repeated allowed tokens tok Hnd) as (l1 & l2 & ? & _ & ?).
    + rewrite Hm. left.
    + intros y. rewrite Hm. by intros ?%list_elem_of_singleton.
    + by exists l1, l2.
  - intros (a & b & Ha & Hb & Hab).
    exists (filter (λ p, p ∈ tokens) allowed). split_and!.
    + apply find_one_ambiguous.
      apply (values_found_members allowed tokens) in Ha, Hb.
      destruct (filter (λ p, p ∈ tokens) allowed) as [|x [|y l]];
        simpl; [by apply elem_of_nil in Ha | | lia].
      apply list_elem_of_singleton in Ha, Hb. congruence.
    + by apply NoDup_filter.
    + intros p. apply (values_found_members allowed tokens).
Qed.

Lemma C1_find_one_by_distinct_values_witness :
  ALLOWED_REAL_RATES ∈ single_valued ∧
  TokenHelper._find_one ALLOWED_REAL_RATES ["bln_rub"; "csv"]
    = Ok (None, ["bln_rub"; "csv"]) ∧
  (∃ l1 l2, ["bln_rub"; "yoy"; "csv"] = l1 ++ "yoy" :: l2 ∧
            TokenHelper._find_one ALLOWED_REAL_RATES ["bln_rub"; "yoy"; "csv"]
            = Ok (Some "yoy", l1 ++ l2)) ∧
  (∃ vs, TokenHelper._find_one ALLOWED_REAL_RATES ["yoy"; "csv"; "rog"]
         = Raise (CustomError400 (Values vs)) ∧
         NoDup vs ∧
         ∀ p, p ∈ vs ↔ p ∈ members ALLOWED_REAL_RATES ["yoy"; "csv"; "rog"]).
Proof.
  assert (Hcat : ALLOWED_REAL_RATES ∈ single_valued) by (right; left).
  split_and!.
  - exact Hcat.
  - apply (C1_find_one_by_distinct_values _ ["bln_rub"; "csv"] Hcat).
    reflexivity.
  - apply (C1_find_one_by_distinct_values _ ["bln_rub"; "yoy"; "csv"] Hcat).
    reflexivity.
  - apply (C1_find_one_by_distinct_values _ ["yoy"; "csv"; "rog"] Hcat).
    exists "yoy", "rog". split_and!; [left | right; left | discriminate].
Defined.

(** C1 as stated fails on a repeated value: two member tokens, and the
    call returns instead of raising. *)
Lemma C1_repeated_value_is_not_ambiguous :
  members ALLOWED_FINALISERS ["csv"; "csv"] = ["csv"; "csv"] ∧
  TokenHelper._find_one ALLOWED_FINALISERS ["csv"; "csv"]
    = Ok (Some "csv", ["csv"]) ∧
  ¬ ∃ vs, TokenHelper._find_one ALLOWED_FINALISERS ["csv"; "csv"]
          = Raise (CustomError400 (Values vs)).
Proof.
  split_and!; [reflexivity | reflexivity |].
  intros [vs Hvs]. discriminate Hvs.
Qed.

(** ** C2 *)

(** C2. Year extraction on a token list, for years of the calendar
    ([MINYEAR] to [MAXYEAR]) and [today] a date of the calendar.
    No integer token: no [start_date], [end_date] is today, the list is
    unchanged. Exactly one integer token [tok]: [start_date] is 1 January
    of that year, [end_date] is today, and the token is removed. Exactly
    two integer tokens [tok1] then [tok2], whichever is larger:
    [start_date] is 1 January of the first, [end_date] is 31 December of
    the second, and both are removed. *)
Theorem C2_year_extraction (today : date) (tokens : list string) :
  today_ok today = true →
  (filter is_int tokens = [] →
     ∃ d, TokenHelper.get_dates_dict today tokens = Ok (d, tokens) ∧
          d !! "start_date" = None ∧
          d !! "end_date" = Some (strftime today)) ∧
  (∀ tok y, filter is_int tokens = [tok] →
     int (PyStr tok) = Ok y → MINYEAR ≤ y ≤ MAXYEAR →
     ∃ d, TokenHelper.get_dates_dict today tokens = Ok (d, non_integers tokens) ∧
          d !! "start_date" = Some (jan1 y) ∧
          d !! "end_date" = Some (strftime today)) ∧
  (∀ tok1 tok2 y1 y2, filter is_int tokens = [tok1; tok2] →
     int (PyStr tok1) = Ok y1 → MINYEAR ≤ y1 ≤ MAXYEAR →
     int (PyStr tok2) = Ok y2 → MINYEAR ≤ y2 ≤ MAXYEAR →
     ∃ d, TokenHelper.get_dates_dict today tokens = Ok (d, non_integers tokens) ∧
          d !! "start_date" = Some (jan1 y1) ∧
          d !! "end_date" = Some (dec31 y2)).
Proof.
  intros Ht. split_and!.
  - intros Hints. eexists. split; [apply dates_without_years; auto|].
    split; [by rewrite lookup_insert_ne | by rewrite lookup_insert_eq].
  - intros tok y Hints Hint Hy. eexists.
    split; [by apply (dates_with_start today tokens tok y)|].
    split; [|by rewrite lookup_insert_eq].
    rewrite lookup_insert_ne by done. by rewrite lookup_insert_eq.
  - intros tok1 tok2 y1 y2 Hints Hint1 Hy1 Hint2 Hy2. eexists.
    split; [by apply (dates_with_start_end today tokens tok1 tok2 y1 y2)|].
    split; [|by rewrite lookup_insert_eq].
    rewrite lookup_insert_ne by done. by rewrite lookup_insert_eq.
Qed.

Lemma C2_year_extraction_witness :
  today_ok (mkdate 2017 11 4) = true ∧
  (∃ d, TokenHelper.get_dates_dict (mkdate 2017 11 4) ["bln_rub"; "csv"]
        = Ok (d, ["bln_rub"; "csv"]) ∧
        d !! "start_date" = None ∧ d !! "end_date" = Some "2017-11-04") ∧
  (∃ d, TokenHelper.get_dates_dict (mkdate 2017 11 4) ["eop"; "2015"; "csv"]
        = Ok (d, ["eop"; "csv"]) ∧
        d !! "start_date" = Some "2015-01-01" ∧
        d !! "end_date" = Some "2017-11-04") ∧
  (∃ d, TokenHelper.get_dates_dict (mkdate 2017 11 4) ["2017"; "eop"; "2015"]
        = Ok (d, ["eop"]) ∧
        d !! "start_date" = Some "2017-01-01" ∧
        d !! "end_date" = Some "2015-12-31").
Proof.
  assert (Ht : today_ok (mkdate 2017 11 4) = true) by reflexivity.
  split_and!.
  - exact Ht.
  - apply (C2_year_extraction _ ["bln_rub"; "csv"] Ht). reflexivity.
  - apply (proj1 (proj2 (C2_year_extraction _ ["eop"; "2015"; "csv"] Ht))
             "2015" 2015); [reflexivity | reflexivity |].
    unfold MINYEAR, MAXYEAR. lia.
  - apply (proj2 (proj2 (C2_year_extraction _ ["2017"; "eop"; "2015"] Ht))
             "2017" "2015" 2017 2015);
      try reflexivity; unfold MINYEAR, MAXYEAR; lia.
Defined.

(** ** C5 *)

(** C5, as the code has it. With more than two integer tokens nothing is
    extracted: [_find_years] returns [(None, None)], every token stays in
    the list, there is no [start_date] and [end_date] is today. *)
Theorem C5_more_than_two_integers (today : date) (tokens : list string) :
  today_ok today = true →
  (2 < length (filter is_int tokens))%nat →
  TokenHelper._find_years tokens = Ok ((None, None), tokens) ∧
  ∃ d, TokenHelper.get_dates_dict today tokens = Ok (d, tokens) ∧
       d !! "start_date" = None ∧
       d !! "end_date" = Some (strftime today).
Proof.
  intros Ht Hmany. split; [by apply find_years_many|].
  eexists. split; [apply dates_without_years; auto|].
  split; [by rewrite lookup_insert_ne | by rewrite lookup_insert_eq].
Qed.

Lemma C5_more_than_two_integers_witness :
  today_ok (mkdate 2017 11 4) = true ∧
  (2 < length (filter is_int ["2015"; "2016"; "bln_rub"; "2017"]))%nat ∧
  TokenHelper._find_years ["2015"; "2016"; "bln_rub"; "2017"]
    = Ok ((None, None), ["2015"; "2016"; "bln_rub"; "2017"]) ∧
  ∃ d, TokenHelper.get_dates_dict (mkdate 2017 11 4)
         ["2015"; "2016"; "bln_rub"; "2017"]
       = Ok (d, ["2015"; "2016"; "bln_rub"; "2017"]) ∧
       d !! "start_date" = None ∧
       d !! "end_date" = Some "2017-11-04".
Proof.
  assert (Ht : today_ok (mkdate 2017 11 4) = true) by reflexivity.
  assert (Hmany : (2 < length (filter is_int ["2015"; "2016"; "bln_rub"; "2017"]))%nat)
    by (vm_compute; lia).
  split; [exact Ht|]. split; [exact Hmany|].
  exact (C5_more_than_two_integers _ _ Ht Hmany).
Defined.

(** C5 as stated fails: of three integer tokens the first two are not
    extracted. *)
Lemma C5_three_integers_extract_nothing :
  filter is_int ["2015"; "2016"; "2017"] = ["2015"; "2016"; "2017"] ∧
  TokenHelper._find_years ["2015"; "2016"; "2017"]
    = Ok ((None, None), ["2015"; "2016"; "2017"]) ∧
  ¬ ∃ d rest, TokenHelper.get_dates_dict (mkdate 2017 11 4) ["2015"; "2016"; "2017"]
              = Ok (d, rest) ∧
              d !! "start_date" = Some "2015-01-01" ∧
              d !! "end_date" = Some "2016-12-31".
Proof.
  split_and!; [reflexivity | reflexivity |].
  intros (d & rest & Hrun & Hstart & _).
  rewrite dates_without_years in Hrun; [|reflexivity|right; vm_compute; lia].
  inversion Hrun; subst. by rewrite lookup_insert_ne in Hstart.
Qed.

(** ** The extraction pipeline of [InnerPath.__init__] *)

Lemma init_ok_inv (today : date) (tokens final : list string) (ip : InnerPath.t) :
  InnerPath.init today tokens = Ok (ip, final) →
  ∃ d f r a t1 t2 t3,
    TokenHelper.get_dates_dict today tokens = Ok (d, t1) ∧
    TokenHelper.fin t1 = Ok (f, t2) ∧
    TokenHelper.rate t2 = Ok (r, t3) ∧
    TokenHelper.agg t3 = Ok (a, final) ∧
    truthy r && truthy a = false ∧
    ip = InnerPath.mk d f r a
           (match final with
            | tok :: _ => Some tok
            | [] => if truthy r then r else None
            end).
Proof.
  unfold InnerPath.init. mstep.
  destruct (TokenHelper.get_dates_dict today tokens) as [[d t1]|] eqn:Hd; [|done].
  destruct (TokenHelper.fin t1) as [[f t2]|] eqn:Hf; [|done].
  destruct (TokenHelper.rate t2) as [[r t3]|] eqn:Hr; [|done].
  destruct (TokenHelper.agg t3) as [[a t4]|] eqn:Ha; [|done].
  destruct (truthy r && truthy a) eqn:Hra; mstep; [done|].
  intros H. inversion H; subst.
  by exists d, f, r, a, t1, t2, t3.
Qed.

Lemma init_extraction (today : date) (tokens final : list string) (ip : InnerPath.t) :
  InnerPath.init today tokens = Ok (ip, final) →
  extraction today tokens
  = Ok ((InnerPath.dates ip, InnerPath.fin ip, InnerPath.rate ip, InnerPath.agg ip),
        final).
Proof.
  intros H.
  destruct (init_ok_inv _ _ _ _ H)
    as (d & f & r & a & t1 & t2 & t3 & Hd & Hf & Hr & Ha & _ & ->).
  unfold extraction. mstep. rewrite Hd, Hf, Hr, Ha. reflexivity.
Qed.

Lemma InnerPath_init_ok_inv (today : date) (inner_path : string) (ip : InnerPath.t) :
  InnerPath.__init__ today inner_path = Ok ip →
  ∃ final, InnerPath.init today (InnerPath.tokenize inner_path) = Ok (ip, final).
Proof.
  unfold InnerPath.__init__.
  destruct (InnerPath.init today (InnerPath.tokenize inner_path)) as [[ip' final]|];
    [|done].
  intros H. inversion H; subst. by exists final.
Qed.

Lemma find_one_sublist (allowed tokens rest : list string) (o : option string) :
  TokenHelper._find_one allowed tokens = Ok (o, rest) →
  rest `sublist_of` tokens.
Proof.
  intros [(_ & -> & _) | (x & l1 & l2 & _ & _ & -> & _ & -> & _)]%find_one_ok_inv.
  - done.
  - apply sublist_app; [done|]. by apply sublist_cons.
Qed.

Lemma get_dates_dict_sublist (today : date) (tokens rest : list string)
    (d : gmap string string) :
  TokenHelper.get_dates_dict today tokens = Ok (d, rest) →
  rest `sublist_of` tokens.
Proof.
  intros [[-> | ->] _]%get_dates_dict_inv; [done|].
  apply sublist_filter.
Qed.

(** The list left by the four steps is the path's token list with some
    tokens taken out, order kept. *)
Lemma extraction_sublist (today : date) (tokens final : list string) r :
  extraction today tokens = Ok (r, final) → final `sublist_of` tokens.
Proof.
  unfold extraction. mstep.
  destruct (TokenHelper.get_dates_dict today tokens) as [[d t1]|] eqn:Hd; [|done].
  destruct (TokenHelper.fin t1) as [[f t2]|] eqn:Hf; [|done].
  destruct (TokenHelper.rate t2) as [[ra t3]|] eqn:Hr; [|done].
  destruct (TokenHelper.agg t3) as [[a t4]|] eqn:Ha; [|done].
  intros H. inversion H; subst.
  etrans; [by eapply find_one_sublist|].
  etrans; [by eapply find_one_sublist|].
  etrans; [by eapply find_one_sublist|].
  by eapply get_dates_dict_sublist.
Qed.

(** The values of the three categories are non-empty and are not
    integers. *)
Lemma category_value (allowed : list string) (p : string) :
  allowed ∈ single_valued → p ∈ allowed →
  truthy (Some p) = true ∧ isdigit p = false.
Proof.
  unfold single_valued. rewrite !elem_of_cons, elem_of_nil.
  intros [-> | [-> | [-> | []]]];
    unfold ALLOWED_FINALISERS, ALLOWED_REAL_RATES, ALLOWED_AGGREGATORS;
    rewrite !elem_of_cons, elem_of_nil; intros Hp;
    repeat (destruct Hp as [-> | Hp]; [by split|]); done.
Qed.

Lemma find_one_value (allowed tokens rest : list string) (x : string) :
  allowed ∈ single_valued →
  TokenHelper._find_one allowed tokens = Ok (Some x, rest) →
  truthy (Some x) = true ∧ isdigit x = false.
Proof.
  intros Hcat H. apply find_one_ok_inv in H.
  destruct H as [(? & _) | (x' & l1 & l2 & Hx & Hin & _)]; [done|].
  inversion Hx; subst x'. by apply (category_value allowed).
Qed.

(** ** C4 *)

(** C4. When [InnerPath(inner_path)] is built, let [remaining] be the
    list that the year, finaliser, rate and aggregator steps leave; it is
    the path's token list with tokens taken out, in path order. If it is
    not empty the unit is its first token; if it is empty and a rate was
    found the unit is that rate; if it is empty and no rate was found
    there is no unit. *)
Theorem C4_unit (today : date) (inner_path : string) (ip : InnerPath.t) :
  InnerPath.__init__ today inner_path = Ok ip →
  ∃ remaining,
    extraction today (InnerPath.tokenize inner_path)
    = Ok ((InnerPath.dates ip, InnerPath.fin ip, InnerPath.rate ip, InnerPath.agg ip),
          remaining) ∧
    remaining `sublist_of` InnerPath.tokenize inner_path ∧
    (∀ tok rest, remaining = tok :: rest → InnerPath.unit ip = Some tok) ∧
    (remaining = [] →
       ∀ r, InnerPath.rate ip = Some r → InnerPath.unit ip = Some r) ∧
    (remaining = [] → InnerPath.rate ip = None → InnerPath.unit ip = None).
Proof.
  intros Hinit.
  destruct (InnerPath_init_ok_inv _ _ _ Hinit) as [final Hrun].
  pose proof (init_extraction _ _ _ _ Hrun) as Hext.
  exists final. split; [done|].
  split; [by eapply extraction_sublist|].
  destruct (init_ok_inv _ _ _ _ Hrun)
    as (d & f & r & a & t1 & t2 & t3 & _ & _ & Hr & _ & _ & ->).
  simpl. split_and!.
  - by intros tok rest ->.
  - intros -> x ->.
    by destruct (find_one_value ALLOWED_REAL_RATES t2 t3 x) as [-> _];
      [right; left | |].
  - by intros -> ->.
Qed.

Lemma C4_unit_witness :
  InnerPath.__init__ (mkdate 2017 11 4) "rog/2016/csv"
  = Ok (InnerPath.mk (<["end_date" := "2017-11-04"]> (<["start_date" := "2016-01-01"]> ∅))
          (Some "csv") (Some "rog") None (Some "rog")) ∧
  ∃ remaining,
    extraction (mkdate 2017 11 4) (InnerPath.tokenize "rog/2016/csv")
    = Ok ((<["end_date" := "2017-11-04"]> (<["start_date" := "2016-01-01"]> ∅),
           Some "csv", Some "rog", None), remaining) ∧
    remaining `sublist_of` InnerPath.tokenize "rog/2016/csv" ∧
    (∀ tok rest, remaining = tok :: rest → Some "rog" = Some tok) ∧
    (remaining = [] → ∀ r, Some "rog" = Some r → Some "rog" = Some r) ∧
    (remaining = [] → Some "rog" = None → Some "rog" = None).
Proof.
  assert (H : InnerPath.__init__ (mkdate 2017 11 4) "rog/2016/csv"
              = Ok (InnerPath.mk
                      (<["end_date" := "2017-11-04"]> (<["start_date" := "2016-01-01"]> ∅))
                      (Some "csv") (Some "rog") None (Some "rog")))
    by (vm_compute; reflexivity).
  split; [exact H|].
  exact (C4_unit _ _ _ H).
Defined.

(** ** C10 *)

Lemma length_non_integers (tokens : list string) :
  (length (filter is_int tokens) + length (non_integers tokens))%nat
  = length tokens.
Proof.
  unfold non_integers. rewrite <- length_app.
  apply Permutation_length, (filter_app_complement is_int).
Qed.

(** The unit never is an integer token that year extraction took out. *)
Lemma unit_not_extracted_year (today : date) (tokens final : list string)
    (ip : InnerPath.t) (d : gmap string string) (tok : string) :
  TokenHelper.get_dates_dict today tokens = Ok (d, non_integers tokens) →
  Is_true (isdigit tok) →
  InnerPath.init today tokens = Ok (ip, final) →
  InnerPath.unit ip ≠ Some tok.
Proof.
  intros Hdates Hdigit Hrun.
  destruct (init_ok_inv _ _ _ _ Hrun)
    as (d' & f & r & a & t1 & t2 & t3 & Hd & Hf & Hr & Ha & _ & ->).
  rewrite Hdates in Hd. inversion Hd; subst d' t1. simpl.
  destruct final as [|tok' rest].
  - destruct r as [x|]; [|done].
    destruct (find_one_value ALLOWED_REAL_RATES t2 t3 x) as [-> Hx];
      [right; left | done |].
    intros [= ->]. rewrite Hx in Hdigit. done.
  - intros [= ->].
    assert (Hin : tok ∈ non_integers tokens).
    { eapply elem_of_sublist; [left|].
      etrans; [by eapply find_one_sublist|].
      etrans; [by eapply find_one_sublist|].
      by eapply find_one_sublist. }
    apply list_elem_of_filter in Hin as [Hnot _]. done.
Qed.

(** C10. When the integer tokens of an inner path are two occurrences of
    one year [tok], year extraction takes out both (two tokens fewer, none
    of them equal to [tok] any more), [start_date] is 1 January and
    [end_date] 31 December of that year, and [tok] is not the unit. *)
Theorem C10_same_year_twice (today : date) (inner_path : string)
    (tok : string) (y : Z) :
  let tokens := InnerPath.tokenize inner_path in
  filter is_int tokens = [tok; tok] →
  int (PyStr tok) = Ok y → MINYEAR ≤ y ≤ MAXYEAR →
  (∃ d, TokenHelper.get_dates_dict today tokens = Ok (d, non_integers tokens) ∧
        d !! "start_date" = Some (jan1 y) ∧
        d !! "end_date" = Some (dec31 y)) ∧
  (tok ∉ non_integers tokens) ∧
  (length (non_integers tokens) + 2)%nat = length tokens ∧
  (∀ ip, InnerPath.__init__ today inner_path = Ok ip →
         InnerPath.unit ip ≠ Some tok).
Proof.
  intros tokens Hints Hint Hy.
  pose proof (dates_with_start_end today tokens tok tok y y Hints Hint Hy Hint Hy)
    as Hdates.
  assert (Hdigit : Is_true (isdigit tok))
    by exact (filter_head_holds _ _ _ _ Hints).
  split_and!.
  - eexists. split; [exact Hdates|].
    split; [|by rewrite lookup_insert_eq].
    rewrite lookup_insert_ne by done. by rewrite lookup_insert_eq.
  - intros Hin. apply list_elem_of_filter in Hin as [Hnot _]. done.
  - pose proof (length_non_integers tokens) as Hlen.
    rewrite Hints in Hlen. simpl in Hlen. lia.
  - intros ip [final Hrun]%InnerPath_init_ok_inv.
    by eapply unit_not_extracted_year.
Qed.

Lemma C10_same_year_twice_witness :
  filter is_int (InnerPath.tokenize "2015/bln_rub/2015") = ["2015"; "2015"] ∧
  int (PyStr "2015") = Ok 2015 ∧
  MINYEAR ≤ 2015 ≤ MAXYEAR ∧
  (∃ d, TokenHelper.get_dates_dict (mkdate 2017 11 4) ["2015"; "bln_rub"; "2015"]
        = Ok (d, ["bln_rub"]) ∧
        d !! "start_date" = Some "2015-01-01" ∧
        d !! "end_date" = Some "2015-12-31") ∧
  ("2015" ∉ ["bln_rub"]) ∧
  (1 + 2)%nat = 3%nat ∧
  (∀ ip, InnerPath.__init__ (mkdate 2017 11 4) "2015/bln_rub/2015" = Ok ip →
         InnerPath.unit ip ≠ Some "2015").
Proof.
  assert (H1 : filter is_int (InnerPath.tokenize "2015/bln_rub/2015")
               = ["2015"; "2015"]) by reflexivity.
  assert (H2 : int (PyStr "2015") = Ok 2015) by reflexivity.
  assert (H3 : MINYEAR ≤ 2015 ≤ MAXYEAR) by (unfold MINYEAR, MAXYEAR; lia).
  split; [exact H1|]. split; [exact H2|]. split; [exact H3|].
  exact (C10_same_year_twice (mkdate 2017 11 4) "2015/bln_rub/2015" _ _ H1 H2 H3).
Defined.

(** ** C3 *)

Lemma get_dates_dict_ok (today : date) (tokens : list string) :
  today_ok today = true → years_ok tokens →
  ∃ d t1, TokenHelper.get_dates_dict today tokens = Ok (d, t1).
Proof.
  intros Ht Hyears. unfold years_ok in Hyears.
  destruct (filter is_int tokens) as [|a [|b [|c l]]] eqn:Hints.
  - eexists _, _. apply dates_without_years; auto.
  - specialize (Hyears ltac:(simpl; lia)).
    apply Forall_cons in Hyears as [(y & Hy & Hrange) _].
    eexists _, _. by apply (dates_with_start today tokens a y).
  - specialize (Hyears ltac:(simpl; lia)).
    apply Forall_cons in Hyears as [(y1 & Hy1 & Hrange1) Hyears].
    apply Forall_cons in Hyears as [(y2 & Hy2 & Hrange2) _].
    eexists _, _. by apply (dates_with_start_end today tokens a b y1 y2).
  - eexists _, _. apply dates_without_years; [done|].
    right. rewrite Hints. simpl. lia.
Qed.

Lemma get_dates_dict_keeps (today : date) (tokens rest : list string)
    (d : gmap string string) (p : string) :
  TokenHelper.get_dates_dict today tokens = Ok (d, rest) →
  isdigit p = false → p ∈ tokens → p ∈ rest.
Proof.
  intros [[-> | ->] _]%get_dates_dict_inv Hp Hin; [done|].
  apply list_elem_of_filter. split; [|done]. rewrite Hp. intros [].
Qed.

Lemma find_one_keeps (allowed tokens rest : list string) (o : option string)
    (p : string) :
  TokenHelper._find_one allowed tokens = Ok (o, rest) →
  p ∉ allowed → p ∈ tokens → p ∈ rest.
Proof.
  intros [(_ & -> & _) | (x & l1 & l2 & _ & Hx & -> & _ & -> & _)]%find_one_ok_inv
    Hp Hin; [done|].
  rewrite elem_of_app, elem_of_cons in Hin. rewrite elem_of_app.
  destruct Hin as [? | [-> | ?]]; [by left | done | by right].
Qed.

Lemma find_one_finds (allowed tokens rest : list string) (o : option string)
    (p : string) :
  TokenHelper._find_one allowed tokens = Ok (o, rest) →
  p ∈ allowed → p ∈ tokens → ∃ x, o = Some x ∧ x ∈ allowed.
Proof.
  intros [(_ & _ & Hnone) | (x & l1 & l2 & -> & Hx & _)]%find_one_ok_inv Hp Hin.
  - by destruct (Hnone p Hp).
  - by exists x.
Qed.

Lemma NoDup_two_distinct {A} (l : list A) :
  NoDup l → (2 ≤ length l)%nat → ∃ a b, a ∈ l ∧ b ∈ l ∧ a ≠ b.
Proof.
  destruct l as [|a [|b l]]; simpl; try lia.
  intros [Hnotin _]%NoDup_cons _. exists a, b.
  split_and!; [left | right; left |].
  intros ->. apply Hnotin. left.
Qed.

(** On a sublist of [tokens], [_find_one] raises only if [tokens] is
    ambiguous for the category. *)
Lemma find_one_raise_ambiguous (allowed tokens t : list string) (e : exn) :
  NoDup allowed → t `sublist_of` tokens →
  TokenHelper._find_one allowed t = Raise e →
  (∃ vs, e = CustomError400 (Values vs)) ∧ ambiguous allowed tokens.
Proof.
  intros Hnd Hsub [-> Hlen]%find_one_raise_inv. split; [by eexists|].
  destruct (NoDup_two_distinct (filter (λ p, p ∈ t) allowed))
    as (a & b & Ha & Hb & Hab); [by apply NoDup_filter | done |].
  exists a, b. unfold members.
  apply list_elem_of_filter in Ha as [Ha1 Ha2].
  apply list_elem_of_filter in Hb as [Hb1 Hb2].
  split_and!; [| |done]; apply list_elem_of_filter.
  - split; [done|]. by apply (elem_of_sublist t).
  - split; [done|]. by apply (elem_of_sublist t).
Qed.

Lemma categories_disjoint (p : string) :
  (p ∈ ALLOWED_REAL_RATES → p ∉ ALLOWED_FINALISERS) ∧
  (p ∈ ALLOWED_AGGREGATORS →
     (p ∉ ALLOWED_FINALISERS) ∧ (p ∉ ALLOWED_REAL_RATES)).
Proof.
  unfold ALLOWED_FINALISERS, ALLOWED_REAL_RATES, ALLOWED_AGGREGATORS.
  split; rewrite !elem_of_cons, elem_of_nil; intros Hp;
    repeat (destruct Hp as [-> | Hp]; [compute_done|]); done.
Qed.

(** With a rate and an aggregator among the tokens, [InnerPath.__init__]
    ends in one of three ways: the exception of the date step, the
    ambiguity error of a category with two different values, or the
    mutual-exclusion error. *)
Lemma init_rate_and_agg (today : date) (tokens : list string) (r a : string) :
  r ∈ ALLOWED_REAL_RATES → r ∈ tokens →
  a ∈ ALLOWED_AGGREGATORS → a ∈ tokens →
  (∃ e, TokenHelper.get_dates_dict today tokens = Raise e ∧
        InnerPath.init today tokens = Raise e) ∨
  (∃ allowed vs, allowed ∈ single_valued ∧ ambiguous allowed tokens ∧
                 InnerPath.init today tokens = Raise (CustomError400 (Values vs))) ∨
  InnerPath.init today tokens = Raise mutually_exclusive.
Proof.
  intros Hr Hrin Ha Hain.
  assert (Hfin : ALLOWED_FINALISERS ∈ single_valued) by left.
  assert (Hrate : ALLOWED_REAL_RATES ∈ single_valued) by (right; left).
  assert (Hagg : ALLOWED_AGGREGATORS ∈ single_valued) by (right; right; left).
  destruct (category_value _ r Hrate Hr) as [_ Hrd].
  destruct (category_value _ a Hagg Ha) as [_ Had].
  destruct (categories_disjoint r) as [Hr_fin _]. specialize (Hr_fin Hr).
  destruct (categories_disjoint a) as [_ Ha_dis].
  destruct (Ha_dis Ha) as [Ha_fin Ha_rate]. clear Ha_dis.
  unfold InnerPath.init. mstep.
  destruct (TokenHelper.get_dates_dict today tokens) as [[d t1]|e] eqn:Hd;
    [|left; by exists e].
  right.
  pose proof (get_dates_dict_sublist _ _ _ _ Hd) as Hsub1.
  pose proof (get_dates_dict_keeps _ _ _ _ r Hd Hrd Hrin) as Hr1.
  pose proof (get_dates_dict_keeps _ _ _ _ a Hd Had Hain) as Ha1.
  destruct (TokenHelper.fin t1) as [[f t2]|e] eqn:Hf.
  2:{ left. apply (find_one_raise_ambiguous _ tokens) in Hf
        as [[vs ->] Hamb]; [|by apply single_valued_NoDup|done].
      by exists ALLOWED_FINALISERS, vs. }
  assert (Hsub2 : t2 `sublist_of` tokens)
    by (etrans; [by eapply find_one_sublist | done]).
  pose proof (find_one_keeps _ _ _ _ r Hf Hr_fin Hr1) as Hr2.
  pose proof (find_one_keeps _ _ _ _ a Hf Ha_fin Ha1) as Ha2.
  destruct (TokenHelper.rate t2) as [[ro t3]|e] eqn:Hra.
  2:{ left. apply (find_one_raise_ambiguous _ tokens) in Hra
        as [[vs ->] Hamb]; [|by apply single_valued_NoDup|done].
      by exists ALLOWED_REAL_RATES, vs. }
  assert (Hsub3 : t3 `sublist_of` tokens)
    by (etrans; [by eapply find_one_sublist | done]).
  pose proof (find_one_keeps _ _ _ _ a Hra Ha_rate Ha2) as Ha3.
  destruct (find_one_finds _ _ _ _ r Hra Hr Hr2) as (x & -> & Hx).
  destruct (TokenHelper.agg t3) as [[ao t4]|e] eqn:Hag.
  2:{ left. apply (find_one_raise_ambiguous _ tokens) in Hag
        as [[vs ->] Hamb]; [|by apply single_valued_NoDup|done].
      by exists ALLOWED_AGGREGATORS, vs. }
  destruct (find_one_finds _ _ _ _ a Hag Ha Ha3) as (z & -> & Hz).
  destruct (category_value _ x Hrate Hx) as [-> _].
  destruct (category_value _ z Hagg Hz) as [-> _].
  by right.
Qed.

(** C3 as stated fails when a category is ambiguous: the ambiguity error
    of the rate step comes before the mutual-exclusion check. *)
Lemma C3_ambiguity_comes_first :
  InnerPath.tokenize "rog/yoy/eop" = ["rog"; "yoy"; "eop"] ∧
  "rog" ∈ ALLOWED_REAL_RATES ∧ "eop" ∈ ALLOWED_AGGREGATORS ∧
  InnerPath.__init__ (mkdate 2017 11 4) "rog/yoy/eop"
  = Raise (CustomError400 (Values ["rog"; "yoy"])) ∧
  InnerPath.__init__ (mkdate 2017 11 4) "rog/yoy/eop" ≠ Raise mutually_exclusive.
Proof.
  split_and!; [reflexivity | left | left | reflexivity | discriminate].
Qed.

(** ** C6 *)

(** C6 at a path whose only segment is a blank: the segment passes the
    test [if token], [strip] then empties it, and the token list holds the
    empty string. The same happens between two other tokens. *)
Theorem C6_blank_segment_gives_empty_token :
  InnerPath.tokenize " " = [""] ∧
  InnerPath.tokenize "bln_rub/ /csv" = ["bln_rub"; ""; "csv"] ∧
  ¬ (∀ inner_path tok, tok ∈ InnerPath.tokenize inner_path → tok ≠ "").
Proof.
  split_and!; [reflexivity | reflexivity |].
  intros H. apply (H " " ""); [left | reflexivity].
Qed.

(** Segments that are empty before [strip] are dropped, as the comment
    at custom_api.py:138 says. *)
Lemma tokenize_drops_empty_segments :
  InnerPath.tokenize "" = [] ∧
  InnerPath.tokenize "//eop///csv/" = ["eop"; "csv"].
Proof. split; reflexivity. Qed.

(** ** C7 *)

(** C7 at the path ["0"]: the token is an integer, year extraction
    selects it, [date(year=0, month=1, day=1)] raises [ValueError], and
    nothing between [_as_date] and the caller of [CustomGET] turns it into
    [CustomError400]. Year 10000 is answered the same way. *)
Theorem C7_year_out_of_range_is_ValueError
    (today : date) (domain varname freq : string) :
  TokenHelper._as_date (PyStr "0") 1 1 = Raise ValueError ∧
  InnerPath.__init__ today "0" = Raise ValueError ∧
  CustomGET.__init__ today domain varname freq "0" = Raise ValueError ∧
  CustomGET.__init__ today domain varname freq "10000" = Raise ValueError ∧
  (∀ p, CustomGET.__init__ today domain varname freq "0" ≠ Raise (CustomError400 p)).
Proof.
  split_and!; try reflexivity.
  intros p H. discriminate H.
Qed.

(** ** C8 *)

Lemma InnerPath_dates_keys (today : date) (inner_path : string) (ip : InnerPath.t)
    (k : string) :
  InnerPath.__init__ today inner_path = Ok ip →
  k ≠ "start_date" → k ≠ "end_date" → InnerPath.dates ip !! k = None.
Proof.
  intros [final Hrun]%InnerPath_init_ok_inv.
  destruct (init_ok_inv _ _ _ _ Hrun)
    as (d & f & r & a & t1 & t2 & t3 & Hd & _ & _ & _ & _ & ->).
  simpl. by apply (get_dates_dict_inv today _ _ _ Hd).
Qed.

Lemma InnerPath_bln_rub (today : date) :
  today_ok today = true →
  InnerPath.__init__ today "bln_rub"
  = Ok (InnerPath.mk (<["end_date" := strftime today]> ∅) None None None
          (Some "bln_rub")).
Proof.
  intros Ht. unfold InnerPath.__init__, InnerPath.init.
  change (InnerPath.tokenize "bln_rub") with ["bln_rub"].
  unfold mbind at 1, result_bind, rbind.
  unfold mbind at 1, M_bind, bind.
  rewrite dates_without_years by (auto; by left).
  reflexivity.
Qed.

Lemma make_freq_allowed (freq : string) :
  freq ∈ ALLOWED_FREQUENCIES → CustomGET.make_freq freq = Ok freq.
Proof.
  intros H. unfold CustomGET.make_freq.
  rewrite bool_decide_eq_false_2; [done|]. by intros Hn.
Qed.

(** The unit of an [InnerPath] is one of the tokens of its path. *)
Lemma unit_is_token (today : date) (inner_path : string) (ip : InnerPath.t)
    (u : string) :
  InnerPath.__init__ today inner_path = Ok ip →
  InnerPath.unit ip = Some u → u ∈ InnerPath.tokenize inner_path.
Proof.
  intros [final Hrun]%InnerPath_init_ok_inv.
  destruct (init_ok_inv _ _ _ _ Hrun)
    as (d & f & r & a & t1 & t2 & t3 & Hd & Hf & Hr & Ha & _ & ->).
  simpl.
  assert (Hsub2 : t2 `sublist_of` InnerPath.tokenize inner_path).
  { etrans; [by eapply find_one_sublist|]. by eapply get_dates_dict_sublist. }
  destruct final as [|tok rest].
  - destruct (truthy r); [|done]. intros ->.
    apply find_one_ok_inv in Hr
      as [(? & _) | (x & l1 & l2 & [= <-] & _ & -> & _)]; [done|].
    eapply elem_of_sublist; [|exact Hsub2].
    rewrite elem_of_app. right. left.
  - intros [= <-].
    eapply elem_of_sublist; [left|].
    etrans; [by eapply find_one_sublist|].
    etrans; [by eapply find_one_sublist|]. done.
Qed.

(** C8. [make_name] returns the variable name when
    there is no unit, and the variable name, an underscore and the unit
    when the unit is a non-empty string. The name that [CustomGET] stores
    is [make_name] of the variable name and of the unit of the inner
    path. On a path whose tokens are non-empty strings, that name is the
    variable name when there is no unit, and the variable name, an
    underscore and the unit when there is one. For the path ["bln_rub"],
    the variable ["EXPORT_GOODS"] and a frequency that [make_freq] takes:
    the name is ["EXPORT_GOODS_bln_rub"], there is no [start_date],
    [end_date] is today, and there is no rate, aggregator or finaliser;
    the same holds of the inner path and [make_name] alone, whatever the
    frequency. *)
Theorem C8_series_name :
  (∀ varname, CustomGET.make_name varname None = varname) ∧
  (∀ varname unit, unit ≠ "" →
     CustomGET.make_name varname (Some unit) = varname +:+ "_" +:+ unit) ∧
  (∀ today domain varname freq inner_path params,
     CustomGET.__init__ today domain varname freq inner_path = Ok params →
     ∃ ip, InnerPath.__init__ today inner_path = Ok ip ∧
           params !! "name"
           = Some (CustomGET.make_name varname (InnerPath.unit ip))) ∧
  (∀ today domain freq,
     today_ok today = true → freq ∈ ALLOWED_FREQUENCIES →
     ∃ params ip,
       CustomGET.__init__ today domain "EXPORT_GOODS" freq "bln_rub" = Ok params ∧
       params !! "name" = Some "EXPORT_GOODS_bln_rub" ∧
       params !! "start_date" = None ∧
       params !! "end_date" = Some (strftime today) ∧
       InnerPath.__init__ today "bln_rub" = Ok ip ∧
       InnerPath.rate ip = None ∧ InnerPath.agg ip = None ∧
       InnerPath.fin ip = None) ∧
  (∀ today domain varname freq inner_path params,
     CustomGET.__init__ today domain varname freq inner_path = Ok params →
     "" ∉ InnerPath.tokenize inner_path →
     ∃ ip, InnerPath.__init__ today inner_path = Ok ip ∧
           (InnerPath.unit ip = None → params !! "name" = Some varname) ∧
           (∀ unit, InnerPath.unit ip = Some unit →
                    params !! "name" = Some (varname +:+ "_" +:+ unit))) ∧
  (∀ today,
     today_ok today = true →
     ∃ ip, InnerPath.__init__ today "bln_rub" = Ok ip ∧
           CustomGET.make_name "EXPORT_GOODS" (InnerPath.get_unit ip)
           = "EXPORT_GOODS_bln_rub" ∧
           InnerPath.get_dates ip !! "start_date" = None ∧
           InnerPath.get_dates ip !! "end_date" = Some (strftime today) ∧
           InnerPath.rate ip = None ∧ InnerPath.agg ip = None ∧
           InnerPath.fin ip = None).
Proof.
  assert (Hname : ∀ today domain varname freq inner_path params,
     CustomGET.__init__ today domain varname freq inner_path = Ok params →
     ∃ ip, InnerPath.__init__ today inner_path = Ok ip ∧
           params !! "name"
           = Some (CustomGET.make_name varname (InnerPath.unit ip))).
  { intros today domain varname freq inner_path params.
    unfold CustomGET.__init__.
    destruct (InnerPath.__init__ today inner_path) as [ip|] eqn:Hip; [|done].
    unfold mbind at 1, result_bind, rbind.
    destruct (CustomGET.make_freq freq) as [f|]; [|done]. simpl.
    intros [= <-]. exists ip. split; [done|].
    unfold InnerPath.get_dates, InnerPath.get_unit.
    rewrite lookup_union_r by (by apply (InnerPath_dates_keys today inner_path)).
    by rewrite lookup_insert_eq. }
  split_and!; [| | exact Hname | | |].
  - done.
  - intros varname unit Hunit. by destruct unit.
  - intros today domain freq Ht Hfreq.
    eexists _, _. unfold CustomGET.__init__.
    rewrite (InnerPath_bln_rub today Ht), (make_freq_allowed freq Hfreq).
    split; [reflexivity|].
    unfold InnerPath.get_dates, InnerPath.get_unit. simpl.
    split_and!; reflexivity.
  - intros today domain varname freq inner_path params Hok Hnonempty.
    destruct (Hname _ _ _ _ _ _ Hok) as (ip & Hip & Hn).
    exists ip. split; [done|]. split.
    + intros Hu. by rewrite Hn, Hu.
    + intros unit Hu. rewrite Hn, Hu.
      assert (Hin : unit ∈ InnerPath.tokenize inner_path)
        by (by eapply unit_is_token).
      destruct unit as [|c u]; [done|]. reflexivity.
  - intros today Ht. eexists. split; [by apply InnerPath_bln_rub|].
    split_and!; reflexivity.
Qed.

Lemma C8_series_name_witness :
  "tkm" ≠ "" ∧
  CustomGET.make_name "GDP" (Some "tkm") = "GDP_tkm" ∧
  (∃ ip, InnerPath.__init__ (mkdate 2017 11 4) "eop/2015/2017/csv" = Ok ip ∧
         (<["end_date" := "2017-12-31"]>
            (<["start_date" := "2015-01-01"]>
               (<["name" := "BRENT"]> {["freq" := "m"]})) : gmap string string)
           !! "name"
         = Some (CustomGET.make_name "BRENT" (InnerPath.unit ip))) ∧
  today_ok (mkdate 2017 11 4) = true ∧
  "m" ∈ ALLOWED_FREQUENCIES ∧
  (∃ params ip,
     CustomGET.__init__ (mkdate 2017 11 4) "ru" "EXPORT_GOODS" "m" "bln_rub" = Ok params ∧
     params !! "name" = Some "EXPORT_GOODS_bln_rub" ∧
     params !! "start_date" = None ∧
     params !! "end_date" = Some "2017-11-04" ∧
     InnerPath.__init__ (mkdate 2017 11 4) "bln_rub" = Ok ip ∧
     InnerPath.rate ip = None ∧ InnerPath.agg ip = None ∧
     InnerPath.fin ip = None) ∧
  ("" ∉ InnerPath.tokenize "eop/2015/2017/csv") ∧
  (∃ ip, InnerPath.__init__ (mkdate 2017 11 4) "eop/2015/2017/csv" = Ok ip ∧
         (InnerPath.unit ip = None →
            (<["end_date" := "2017-12-31"]>
               (<["start_date" := "2015-01-01"]>
                  (<["name" := "BRENT"]> {["freq" := "m"]})) : gmap string string)
              !! "name" = Some "BRENT") ∧
         (∀ unit, InnerPath.unit ip = Some unit →
            (<["end_date" := "2017-12-31"]>
               (<["start_date" := "2015-01-01"]>
                  (<["name" := "BRENT"]> {["freq" := "m"]})) : gmap string string)
              !! "name" = Some ("BRENT" +:+ "_" +:+ unit))).
Proof.
  destruct C8_series_name as (_ & Hunit & Hname & Hexample & Hliteral & _).
  assert (H5 : "" ∉ InnerPath.tokenize "eop/2015/2017/csv") by compute_done.
  assert (H1 : "tkm" ≠ "") by discriminate.
  assert (H2 : CustomGET.__init__ (mkdate 2017 11 4) "oil" "BRENT" "m" "eop/2015/2017/csv"
               = Ok (<["end_date" := "2017-12-31"]>
                       (<["start_date" := "2015-01-01"]>
                          (<["name" := "BRENT"]> {["freq" := "m"]}))))
    by (vm_compute; reflexivity).
  assert (H3 : today_ok (mkdate 2017 11 4) = true) by reflexivity.
  assert (H4 : "m" ∈ ALLOWED_FREQUENCIES) by (do 2 right; left).
  split_and!.
  - exact H1.
  - exact (Hunit "GDP" "tkm" H1).
  - exact (Hname _ _ _ _ _ _ H2).
  - exact H3.
  - exact H4.
  - exact (Hexample (mkdate 2017 11 4) "ru" "m" H3 H4).
  - exact H5.
  - exact (Hliteral _ _ _ _ _ _ H2 H5).
Defined.

(** The blank segment of C6 downstream: the path [" "] yields the token
    [""], which becomes the unit, and [make_name] treats it as no unit:
    the name is the variable name, as for a path with no token. *)
Lemma blank_path_name_is_variable_name :
  (∃ ip, InnerPath.__init__ (mkdate 2017 11 4) " " = Ok ip ∧
         InnerPath.unit ip = Some "") ∧
  CustomGET.make_name "CPI" (Some "") = "CPI" ∧
  CustomGET.make_name "CPI" (Some "") ≠ "CPI" +:+ "_" +:+ "" ∧
  ∃ params, CustomGET.__init__ (mkdate 2017 11 4) "ru" "CPI" "m" " " = Ok params ∧
            params !! "name" = Some "CPI".
Proof.
  split_and!.
  - eexists. split; [vm_compute; reflexivity | reflexivity].
  - reflexivity.
  - discriminate.
  - eexists. split; [vm_compute; reflexivity | reflexivity].
Qed.

(** ** C9 *)

Section StoreProperties.
Context {Value : Type}.
Implicit Types (d r : Store.Datapoint Value) (rows : list (Store.Datapoint Value)).

(** Replacing the value of a record by that of [d] gives [d] itself when
    the keys agree. *)
Lemma replace_value_same_key d r :
  Store.key r = Store.key d →
  Store.mkDatapoint (Store.dp_date r) (Store.dp_freq r) (Store.dp_name r)
    (Store.dp_value d) = d.
Proof.
  destruct d, r. unfold Store.key. simpl. by intros [= -> -> ->].
Qed.

Lemma upsert_rows_keys d rows :
  Store.key <$> Store.upsert_rows d rows
  = if decide (Store.key d ∈ Store.key <$> rows)
    then Store.key <$> rows
    else (Store.key <$> rows) ++ [Store.key d].
Proof.
  induction rows as [|r rows IH].
  - simpl. destruct (decide (Store.key d ∈ [])) as [Hin|_]; [|done].
    by apply elem_of_nil in Hin.
  - cbn [Store.upsert_rows].
    destruct (decide (Store.key r = Store.key d)) as [Heq|Hne].
    + rewrite !fmap_cons. simpl.
      destruct (decide (Store.key d ∈ Store.key r :: (Store.key <$> rows)))
        as [_|Hnin]; [done|].
      exfalso. apply Hnin. rewrite Heq. left.
    + rewrite !fmap_cons, IH.
      destruct (decide (Store.key d ∈ Store.key <$> rows)) as [Hin|Hnin];
        destruct (decide (Store.key d ∈ Store.key r :: (Store.key <$> rows)))
          as [Hin'|Hnin']; try done.
      * exfalso. apply Hnin'. by right.
      * exfalso. apply elem_of_cons in Hin' as [? | ?]; [congruence | done].
Qed.

Lemma upsert_rows_unique d rows :
  Store.unique_keys rows → Store.unique_keys (Store.upsert_rows d rows).
Proof.
  unfold Store.unique_keys. intros Hnd. rewrite upsert_rows_keys.
  destruct (decide (Store.key d ∈ Store.key <$> rows)); [done|].
  apply NoDup_app. split_and!; [done | | apply NoDup_singleton].
  intros k Hk ->%list_elem_of_singleton. done.
Qed.

Lemma records_with_key_absent d rows :
  Store.key d ∉ Store.key <$> rows →
  Store.records_with_key (Store.key d) rows = [].
Proof.
  intros Hnotin. unfold Store.records_with_key.
  destruct (filter _ rows) as [|r l] eqn:Hf; [done|].
  exfalso. apply Hnotin.
  assert (Hr : r ∈ filter (λ r, Store.key r = Store.key d) rows)
    by (rewrite Hf; left).
  apply list_elem_of_filter in Hr as [<- Hin].
  by apply list_elem_of_fmap_2.
Qed.

Lemma upsert_rows_records d rows :
  Store.unique_keys rows →
  Store.records_with_key (Store.key d) (Store.upsert_rows d rows) = [d].
Proof.
  unfold Store.unique_keys.
  induction rows as [|r rows IH]; simpl; intros Hnd.
  - unfold Store.records_with_key. by rewrite filter_cons_True.
  - apply NoDup_cons in Hnd as [Hnotin Hnd].
    destruct (decide (Store.key r = Store.key d)) as [Heq|Hne].
    + rewrite (replace_value_same_key d r Heq).
      unfold Store.records_with_key. rewrite filter_cons_True by done.
      f_equal. apply records_with_key_absent. by rewrite <- Heq.
    + unfold Store.records_with_key. rewrite filter_cons_False by done.
      by apply IH.
Qed.

Lemma upsert_rows_idempotent d rows :
  Store.upsert_rows d (Store.upsert_rows d rows) = Store.upsert_rows d rows.
Proof.
  induction rows as [|r rows IH]; simpl.
  - rewrite decide_True by done. by destruct d.
  - destruct (decide (Store.key r = Store.key d)) as [Heq|Hne]; simpl.
    + rewrite decide_True by done. done.
    + rewrite decide_False by done. by rewrite IH.
Qed.

(** C9. On a table that satisfies the uniqueness constraint, after
    [upsert d], and again after a second [upsert d], the records with the
    key of [d] are exactly one, it is [d] (so its value is that of [d]),
    and the constraint still holds; the second [upsert d] changes
    nothing. This does not depend on whether the key was there. *)
Theorem C9_upsert_idempotent d rows :
  Store.unique_keys rows →
  let rows1 := (Store.upsert d rows).2 in
  let rows2 := (Store.upsert d rows1).2 in
  Store.records_with_key (Store.key d) rows1 = [d] ∧
  Store.unique_keys rows1 ∧
  Store.records_with_key (Store.key d) rows2 = [d] ∧
  Store.unique_keys rows2 ∧
  rows2 = rows1 ∧
  (Store.upsert d rows).1 = d.
Proof.
  intros Hu. simpl. rewrite upsert_rows_idempotent.
  split_and!; try done; auto using upsert_rows_records, upsert_rows_unique.
Qed.

End StoreProperties.

Lemma C9_upsert_idempotent_witness :
  let d1 := Store.mkDatapoint (mkdate 2016 4 21) "q" "CPI_rog" (1234 # 10)%Q in
  let d2 := Store.mkDatapoint (mkdate 2016 4 21) "q" "CPI_rog" (12796 # 100)%Q in
  let other := Store.mkDatapoint (mkdate 2016 6 30) "m" "CPI_ALCOHOL_rog" (1006 # 10)%Q in
  Store.unique_keys [other; d1] ∧
  (Store.upsert d2 [other; d1]).2 = [other; d2] ∧
  Store.records_with_key (Store.key d2) (Store.upsert d2 [other; d1]).2 = [d2] ∧
  Store.unique_keys (Store.upsert d2 [other; d1]).2 ∧
  Store.records_with_key (Store.key d2)
    (Store.upsert d2 (Store.upsert d2 [other; d1]).2).2 = [d2] ∧
  Store.unique_keys (Store.upsert d2 (Store.upsert d2 [other; d1]).2).2 ∧
  (Store.upsert d2 (Store.upsert d2 [other; d1]).2).2
  = (Store.upsert d2 [other; d1]).2 ∧
  (Store.upsert d2 [other; d1]).1 = d2.
Proof.
  intros d1 d2 other.
  assert (Hu : Store.unique_keys [other; d1]).
  { unfold Store.unique_keys. simpl.
    apply NoDup_cons. split; [|apply NoDup_singleton].
    intros Hin%list_elem_of_singleton. discriminate Hin. }
  split; [exact Hu|]. split; [reflexivity|].
  exact (C9_upsert_idempotent d2 [other; d1] Hu).
Defined.

(** * Further properties of custom_api.py *)

(** ** [TokenHelper._pop] *)

Lemma pop_cons (value a : string) (l : list string) :
  TokenHelper._pop value (a :: l) =
  if decide (a = value) then Ok (tt, l)
  else match TokenHelper._pop value l with
       | Ok (_, r) => Ok (tt, a :: r)
       | Raise e => Raise e
       end.
Proof.
  unfold TokenHelper._pop. simpl.
  destruct (decide (a = value)); [done|].
  by destruct (list_find (λ t, t = value) l) as [[i x]|].
Qed.

Lemma pop_absent (value : string) (tokens : list string) :
  value ∉ tokens → TokenHelper._pop value tokens = Raise ValueError.
Proof.
  intros Hnotin. unfold TokenHelper._pop.
  destruct (list_find (λ t, t = value) tokens) as [[i x]|] eqn:Hf; [|done].
  apply list_find_Some in Hf as (Hi & -> & _).
  destruct Hnotin. by eapply list_elem_of_lookup_2.
Qed.

(** [_pop] fails exactly when the value is not in the list, and then with
    the [ValueError] of [list.index]. *)
Theorem pop_raises_iff_absent (value : string) (tokens : list string) :
  (value ∉ tokens → TokenHelper._pop value tokens = Raise ValueError) ∧
  (∀ e, TokenHelper._pop value tokens = Raise e → e = ValueError ∧ (value ∉ tokens)).
Proof.
  pose proof (pop_absent value tokens) as Habsent.
  split; [done|].
  intros e He. destruct (decide (value ∈ tokens)) as [Hin|Hnotin].
  - destruct (pop_elem_of value tokens Hin) as (l1 & l2 & _ & _ & Hpop).
    by rewrite Hpop in He.
  - rewrite (Habsent Hnotin) in He. by inversion He.
Qed.

Lemma pop_raises_iff_absent_witness :
  ("csv" ∉ ["eop"; "2015"]) ∧
  TokenHelper._pop "csv" ["eop"; "2015"] = Raise ValueError.
Proof.
  assert (H : "csv" ∉ ["eop"; "2015"]) by compute_done.
  split; [exact H|].
  exact (proj1 (pop_raises_iff_absent "csv" ["eop"; "2015"]) H).
Defined.

(** A successful [_pop] takes out one occurrence of the value, the first
    one, and keeps every other token in its place. *)
Theorem pop_removes_first_occurrence (value : string) (tokens rest : list string) :
  TokenHelper._pop value tokens = Ok (tt, rest) →
  tokens ≡ₚ value :: rest ∧
  length tokens = S (length rest) ∧
  ∃ l1 l2, tokens = l1 ++ value :: l2 ∧ rest = l1 ++ l2 ∧ (value ∉ l1).
Proof.
  intros Hpop.
  destruct (decide (value ∈ tokens)) as [Hin|Hnotin].
  - destruct (pop_elem_of value tokens Hin) as (l1 & l2 & -> & Hnotin & Hrun).
    rewrite Hrun in Hpop. inversion Hpop; subst rest.
    split_and!.
    + by rewrite Permutation_middle.
    + rewrite !length_app. simpl. lia.
    + by exists l1, l2.
  - rewrite (pop_absent value tokens Hnotin) in Hpop.
    discriminate Hpop.
Qed.

Lemma pop_removes_first_occurrence_witness :
  TokenHelper._pop "2015" ["eop"; "2015"; "csv"; "2015"] = Ok (tt, ["eop"; "csv"; "2015"]) ∧
  ["eop"; "2015"; "csv"; "2015"] ≡ₚ "2015" :: ["eop"; "csv"; "2015"] ∧
  length ["eop"; "2015"; "csv"; "2015"] = S (length ["eop"; "csv"; "2015"]) ∧
  ∃ l1 l2, ["eop"; "2015"; "csv"; "2015"] = l1 ++ "2015" :: l2 ∧
           ["eop"; "csv"; "2015"] = l1 ++ l2 ∧ ("2015" ∉ l1).
Proof.
  assert (H : TokenHelper._pop "2015" ["eop"; "2015"; "csv"; "2015"]
              = Ok (tt, ["eop"; "csv"; "2015"])) by reflexivity.
  split; [exact H|].
  exact (pop_removes_first_occurrence _ _ _ H).
Defined.

(** ** [TokenHelper._find_years] *)

Lemma find_years_spec (tokens : list string) :
  TokenHelper._find_years tokens
  = Ok (selected_years (filter is_int tokens), after_years tokens).
Proof.
  unfold after_years.
  destruct (filter is_int tokens) as [|a [|b [|c l]]] eqn:Hints; simpl.
  - by apply find_years_none.
  - by apply find_years_one.
  - by apply find_years_two.
  - apply find_years_many. rewrite Hints. simpl. lia.
Qed.

(** [_find_years] never raises: [integers[0]], [integers[1]] and the two
    [_pop] calls always find what they look for. It returns an end year
    only together with a start year, it takes out integer tokens only,
    and the other tokens stay in their order. *)
Theorem find_years_never_raises (tokens : list string) :
  ∃ start end_ rest,
    TokenHelper._find_years tokens = Ok ((start, end_), rest) ∧
    (start = None → end_ = None) ∧
    rest `sublist_of` tokens ∧
    filter not_int rest = filter not_int tokens ∧
    (∀ y, start = Some y ∨ end_ = Some y → Is_true (isdigit y) ∧ y ∈ tokens).
Proof.
  destruct (selected_years (filter is_int tokens)) as [start end_] eqn:Hsel.
  exists start, end_, (after_years tokens).
  split; [by rewrite find_years_spec, Hsel|].
  assert (Hmem : ∀ y, y ∈ filter is_int tokens → Is_true (isdigit y) ∧ y ∈ tokens).
  { intros y Hy. by apply list_elem_of_filter in Hy. }
  unfold after_years, non_integers.
  destruct (filter is_int tokens) as [|a [|b [|c l]]] eqn:Hints;
    simpl in Hsel; inversion Hsel; subst start end_.
  - split_and!; try done. by intros y [? | ?].
  - split_and!; try done.
    + apply sublist_filter.
    + apply list_filter_filter_l. tauto.
    + intros y [[= <-] | ?]; [|done]. apply Hmem. left.
  - split_and!; try done.
    + apply sublist_filter.
    + apply list_filter_filter_l. tauto.
    + intros y [[= <-] | [= <-]]; apply Hmem; [left | right; left].
  - split_and!; try done. by intros y [? | ?].
Qed.

(** ** [TokenHelper._find_one] *)

Lemma values_found_permutation (allowed tokens tokens' : list string) :
  tokens ≡ₚ tokens' →
  filter (λ p, p ∈ tokens) allowed = filter (λ p, p ∈ tokens') allowed.
Proof.
  intros Hperm. apply list_filter_iff. intros p. by rewrite Hperm.
Qed.

Lemma find_one_permutation (allowed tokens tokens' : list string) :
  tokens ≡ₚ tokens' →
  same_outcome (λ r r', r.1 = r'.1 ∧ r.2 ≡ₚ r'.2)
    (TokenHelper._find_one allowed tokens)
    (TokenHelper._find_one allowed tokens').
Proof.
  intros Hperm.
  pose proof (values_found_permutation allowed _ _ Hperm) as Hvf.
  destruct (filter (λ p, p ∈ tokens) allowed) as [|a [|b l]] eqn:Hf.
  - rewrite (find_one_none _ _ Hf), (find_one_none _ tokens') by done.
    by simpl.
  - destruct (find_one_single _ _ _ Hf) as (l1 & l2 & Heq & _ & ->).
    symmetry in Hvf.
    destruct (find_one_single _ _ _ Hvf) as (l1' & l2' & Heq' & _ & ->).
    simpl. split; [done|].
    apply (inj (cons a)).
    by rewrite !Permutation_middle, <- Heq, <- Heq'.
  - rewrite (find_one_ambiguous allowed tokens) by (rewrite Hf; simpl; lia).
    rewrite (find_one_ambiguous allowed tokens') by (rewrite <- Hvf; simpl; lia).
    simpl. by rewrite Hf, Hvf.
Qed.

(** The outcome of [_find_one] does not depend on the order of the
    tokens: on two orderings of the same tokens it returns the same value
    and leaves the same tokens, or raises the same exception. *)
Theorem find_one_order_independent (allowed tokens tokens' : list string) :
  tokens ≡ₚ tokens' →
  same_outcome (λ r r', r.1 = r'.1 ∧ r.2 ≡ₚ r'.2)
    (TokenHelper._find_one allowed tokens)
    (TokenHelper._find_one allowed tokens').
Proof. exact (find_one_permutation allowed tokens tokens'). Qed.

Lemma find_one_order_independent_witness :
  ["csv"; "bln_rub"; "eop"] ≡ₚ ["eop"; "csv"; "bln_rub"] ∧
  same_outcome (λ r r', r.1 = r'.1 ∧ r.2 ≡ₚ r'.2)
    (TokenHelper._find_one ALLOWED_FINALISERS ["csv"; "bln_rub"; "eop"])
    (TokenHelper._find_one ALLOWED_FINALISERS ["eop"; "csv"; "bln_rub"]).
Proof.
  assert (H : ["csv"; "bln_rub"; "eop"] ≡ₚ ["eop"; "csv"; "bln_rub"]).
  { change (["csv"; "bln_rub"] ++ ["eop"] ≡ₚ ["eop"] ++ ["csv"; "bln_rub"]).
    apply Permutation_app_comm. }
  split; [exact H|].
  exact (find_one_order_independent ALLOWED_FINALISERS _ _ H).
Defined.

(** ** [TokenHelper._as_date] *)

Lemma int_acc_digits (s : string) (acc : Z) :
  Is_true (all_digits s) → 0 ≤ acc →
  ∃ y, int_acc acc s = Ok y ∧ 0 ≤ y.
Proof.
  revert acc. induction s as [|c s IH]; simpl; intros acc Hd Hacc.
  - by exists acc.
  - apply andb_True in Hd as [Hc Hs].
    destruct (is_ascii_digit c) eqn:Hdc; [|done].
    apply IH; [done|].
    unfold is_ascii_digit in Hdc. apply andb_prop in Hdc as [Hlo _].
    apply Nat.leb_le in Hlo. unfold digit_value. lia.
Qed.

Lemma int_digit_token (tok : string) :
  Is_true (isdigit tok) →
  (Z.of_nat (String.length tok) ≤ MAX_STR_DIGITS →
     ∃ y, int (PyStr tok) = Ok y ∧ 0 ≤ y) ∧
  (MAX_STR_DIGITS < Z.of_nat (String.length tok) →
     int (PyStr tok) = Raise ValueError).
Proof.
  destruct tok as [|c s]; [done|].
  intros Hd. unfold int. split; intros Hlen.
  - rewrite (proj2 (Z.ltb_ge _ _)) by done.
    by apply (int_acc_digits (String c s) 0).
  - by rewrite (proj2 (Z.ltb_lt _ _)) by done.
Qed.

Lemma int_acc_raise_inv (s : string) (acc : Z) (e : exn) :
  int_acc acc s = Raise e → e = ValueError.
Proof.
  revert acc. induction s as [|c s IH]; simpl; intros acc; [done|].
  destruct (is_ascii_digit c); [apply IH | by intros [= <-]].
Qed.

Lemma int_raise_inv (x : pyval) (e : exn) :
  int x = Raise e → e = ValueError.
Proof.
  destruct x as [[|c s]|z]; simpl; [by intros [= <-] | | done].
  destruct (MAX_STR_DIGITS <? _); [by intros [= <-]|].
  apply (int_acc_raise_inv (String c s) 0).
Qed.

Lemma date_new_raise_inv (y m d : Z) (e : exn) :
  date_new y m d = Raise e → e = ValueError ∨ e = OverflowError.
Proof.
  unfold date_new.
  destruct (negb _); [intros [= <-]; by right|].
  destruct (valid_date y m d); [done|]. intros [= <-]. by left.
Qed.

Lemma as_date_raise_inv (year : pyval) (m d : Z) (e : exn) :
  TokenHelper._as_date year m d = Raise e → e = ValueError ∨ e = OverflowError.
Proof.
  unfold TokenHelper._as_date.
  destruct (int year) as [y|e'] eqn:Hint; simpl.
  - destruct (date_new y m d) as [dt|e'] eqn:Hnew; simpl; [done|].
    intros [= <-]. by eapply date_new_raise_inv.
  - intros [= <-]. left. by eapply int_raise_inv.
Qed.

Lemma as_date_ok_inv (tok : string) (m d : Z) (s : string) :
  TokenHelper._as_date (PyStr tok) m d = Ok s →
  ∃ y, int (PyStr tok) = Ok y ∧ valid_date y m d = true ∧
       s = strftime (mkdate y m d).
Proof.
  unfold TokenHelper._as_date.
  destruct (int (PyStr tok)) as [y|] eqn:Hint; simpl; [|done].
  unfold date_new. destruct (negb _); simpl; [done|].
  destruct (valid_date y m d) eqn:Hv; simpl; [|done].
  intros [= <-]. by exists y.
Qed.

(** [_as_date] on an integer token. A token of at most [MAX_STR_DIGITS]
    digits has a value [y]; the call returns the date exactly when [y] is
    a year of the calendar, and otherwise raises [ValueError] or
    [OverflowError]. On a longer token [int()] raises [ValueError]. In no
    case is the exception a [CustomError400]. *)
Theorem as_date_integer_token (tok : string) :
  Is_true (isdigit tok) →
  (Z.of_nat (String.length tok) ≤ MAX_STR_DIGITS →
   ∃ y, int (PyStr tok) = Ok y ∧ 0 ≤ y ∧
        (MINYEAR ≤ y ≤ MAXYEAR →
           TokenHelper._as_date (PyStr tok) 1 1 = Ok (jan1 y) ∧
           TokenHelper._as_date (PyStr tok) 12 31 = Ok (dec31 y)) ∧
        (¬ (MINYEAR ≤ y ≤ MAXYEAR) →
           ∃ e, TokenHelper._as_date (PyStr tok) 1 1 = Raise e ∧
                TokenHelper._as_date (PyStr tok) 12 31 = Raise e ∧
                (e = ValueError ∨ e = OverflowError))) ∧
  (MAX_STR_DIGITS < Z.of_nat (String.length tok) →
   TokenHelper._as_date (PyStr tok) 1 1 = Raise ValueError ∧
   TokenHelper._as_date (PyStr tok) 12 31 = Raise ValueError).
Proof.
  intros Hd. destruct (int_digit_token tok Hd) as [Hshort Hlong]. split.
  - intros Hlen. destruct (Hshort Hlen) as (y & Hint & Hy).
    exists y. split_and!; [done..| |].
    + intros Hrange. split; [by apply as_date_start | by apply as_date_end].
    + intros Hout. unfold TokenHelper._as_date. rewrite Hint. simpl.
      unfold date_new.
      destruct (fits_c_int y) eqn:Hfit; simpl.
      * assert (Hv : ∀ m d, valid_date y m d = false).
        { intros m d. unfold valid_date.
          destruct (MINYEAR <=? y) eqn:H1; [|done].
          destruct (y <=? MAXYEAR) eqn:H2; [|done].
          apply Z.leb_le in H1, H2. lia. }
        rewrite !Hv. simpl. exists ValueError. by split_and!; [..|left].
      * exists OverflowError. by split_and!; [..|right].
  - intros Hlen. unfold TokenHelper._as_date. by rewrite (Hlong Hlen).
Qed.

Lemma as_date_integer_token_witness :
  Is_true (isdigit "0815") ∧
  Z.of_nat (String.length "0815") ≤ MAX_STR_DIGITS ∧
  ∃ y, int (PyStr "0815") = Ok y ∧ 0 ≤ y ∧
       (MINYEAR ≤ y ≤ MAXYEAR →
          TokenHelper._as_date (PyStr "0815") 1 1 = Ok (jan1 y) ∧
          TokenHelper._as_date (PyStr "0815") 12 31 = Ok (dec31 y)) ∧
       (¬ (MINYEAR ≤ y ≤ MAXYEAR) →
          ∃ e, TokenHelper._as_date (PyStr "0815") 1 1 = Raise e ∧
               TokenHelper._as_date (PyStr "0815") 12 31 = Raise e ∧
               (e = ValueError ∨ e = OverflowError)).
Proof.
  assert (H : Is_true (isdigit "0815")) by exact I.
  assert (Hlen : Z.of_nat (String.length "0815") ≤ MAX_STR_DIGITS)
    by (unfold MAX_STR_DIGITS; simpl; lia).
  split; [exact H|]. split; [exact Hlen|].
  exact (proj1 (as_date_integer_token "0815" H) Hlen).
Defined.

(** ** [TokenHelper.get_dates_dict] *)

Lemma selected_years_truthy (tokens : list string) :
  match filter is_int tokens with
  | [a] => truthy (Some a) = true
  | [a; b] => truthy (Some a) = true ∧ truthy (Some b) = true
  | _ => True
  end.
Proof.
  assert (Hmem : ∀ y, y ∈ filter is_int tokens → truthy (Some y) = true).
  { intros y Hy. apply list_elem_of_filter in Hy as [Hy _].
    by apply isdigit_truthy. }
  destruct (filter is_int tokens) as [|a [|b [|c l]]]; try done.
  - apply Hmem. left.
  - split; apply Hmem; [left | right; left].
Qed.

Lemma get_dates_dict_spec (today : date) (tokens : list string) :
  TokenHelper.get_dates_dict today tokens =
    let start_year := (selected_years (filter is_int tokens)).1 in
    let end_year := (selected_years (filter is_int tokens)).2 in
    match (if truthy start_year
           then rbind (TokenHelper._as_date (PyStr (default "" start_year)) 1 1)
                  (λ s, Ok (<["start_date" := s]> (∅ : gmap string string)))
           else Ok ∅) with
    | Raise e => Raise e
    | Ok result =>
        match (if truthy end_year
               then TokenHelper._as_date (PyStr (default "" end_year)) 12 31
               else TokenHelper._as_date (PyInt (year today)) (month today) (day today)) with
        | Raise e => Raise e
        | Ok s => Ok (<["end_date" := s]> result, after_years tokens)
        end
    end.
Proof.
  apply get_dates_dict_after. rewrite find_years_spec.
  by destruct (selected_years (filter is_int tokens)).
Qed.

Lemma dates_result_inv (today : date) (tokens rest : list string)
    (d : gmap string string) :
  TokenHelper.get_dates_dict today tokens = Ok (d, rest) →
  rest = after_years tokens ∧
  (∀ k, k ≠ "start_date" → k ≠ "end_date" → d !! k = None) ∧
  is_Some (d !! "end_date") ∧
  (is_Some (d !! "start_date") ↔
     length (filter is_int tokens) = 1%nat ∨ length (filter is_int tokens) = 2%nat).
Proof.
  intros H. pose proof (get_dates_dict_inv _ _ _ _ H) as [_ Hkeys].
  rewrite (get_dates_dict_spec today tokens) in H.
  pose proof (selected_years_truthy tokens) as Htruthy.
  destruct (filter is_int tokens) as [|a [|b [|c l]]] eqn:Hints;
    simpl in H, Htruthy.
  - destruct (TokenHelper._as_date _ _ _) as [s|]; [|done].
    inversion H; subst. split_and!; [done.. | |].
    + rewrite lookup_insert_eq. by eexists.
    + rewrite lookup_insert_ne by done. rewrite lookup_empty.
      split; [by intros [? ?] | by intros [? | ?]].
  - rewrite Htruthy in H.
    destruct (TokenHelper._as_date _ 1 1) as [s|]; simpl in H; [|done].
    destruct (TokenHelper._as_date _ _ _) as [s'|]; [|done].
    inversion H; subst. split_and!; [done.. | |].
    + rewrite lookup_insert_eq. by eexists.
    + rewrite lookup_insert_ne by done. rewrite lookup_insert_eq.
      split; [by left | by eexists].
  - destruct Htruthy as [Ha Hb]. rewrite Ha, Hb in H.
    destruct (TokenHelper._as_date _ 1 1) as [s|]; simpl in H; [|done].
    destruct (TokenHelper._as_date _ 12 31) as [s'|]; [|done].
    inversion H; subst. split_and!; [done.. | |].
    + rewrite lookup_insert_eq. by eexists.
    + rewrite lookup_insert_ne by done. rewrite lookup_insert_eq.
      split; [by right | by eexists].
  - destruct (TokenHelper._as_date _ _ _) as [s|]; [|done].
    inversion H; subst. split_and!; [done.. | |].
    + rewrite lookup_insert_eq. by eexists.
    + rewrite lookup_insert_ne by done. rewrite lookup_empty.
      split; [by intros [? ?] | simpl; lia].
Qed.

(** What a successful [get_dates_dict] returns: the list of
    [_find_years]; a dictionary with no other key than ['start_date'] and
    ['end_date']; ['end_date'] always; ['start_date'] exactly when the
    list had one or two integer tokens. *)
Theorem get_dates_dict_result (today : date) (tokens rest : list string)
    (d : gmap string string) :
  TokenHelper.get_dates_dict today tokens = Ok (d, rest) →
  rest = after_years tokens ∧
  (∀ k, k ≠ "start_date" → k ≠ "end_date" → d !! k = None) ∧
  is_Some (d !! "end_date") ∧
  (is_Some (d !! "start_date") ↔
     length (filter is_int tokens) = 1%nat ∨ length (filter is_int tokens) = 2%nat).
Proof. exact (dates_result_inv today tokens rest d). Qed.

Lemma get_dates_dict_result_witness :
  TokenHelper.get_dates_dict (mkdate 2017 11 4) ["eop"; "2015"; "csv"]
  = Ok (<["end_date" := "2017-11-04"]> (<["start_date" := "2015-01-01"]> ∅),
        ["eop"; "csv"]) ∧
  ["eop"; "csv"] = after_years ["eop"; "2015"; "csv"] ∧
  is_Some ((<["end_date" := "2017-11-04"]> (<["start_date" := "2015-01-01"]> ∅)
              : gmap string string) !! "end_date").
Proof.
  assert (H : TokenHelper.get_dates_dict (mkdate 2017 11 4) ["eop"; "2015"; "csv"]
              = Ok (<["end_date" := "2017-11-04"]> (<["start_date" := "2015-01-01"]> ∅),
                    ["eop"; "csv"])) by (vm_compute; reflexivity).
  split; [exact H|].
  destruct (get_dates_dict_result _ _ _ _ H) as (Hrest & _ & Hend & _).
  split; [exact Hrest | exact Hend].
Defined.

Lemma dates_raise_inv (today : date) (tokens : list string)
    (e : exn) :
  TokenHelper.get_dates_dict today tokens = Raise e →
  e = ValueError ∨ e = OverflowError.
Proof.
  intros H.
  rewrite (get_dates_dict_spec today tokens) in H.
  destruct (selected_years (filter is_int tokens)) as [sy ey]. simpl in H.
  destruct (truthy sy).
  - destruct (TokenHelper._as_date _ 1 1) as [s|e'] eqn:Hs; simpl in H.
    + destruct (if truthy ey then _ else _) as [s'|e'] eqn:He; [done|].
      inversion H; subst e'.
      destruct (truthy ey); by eapply as_date_raise_inv.
    + inversion H; subst e'. by eapply as_date_raise_inv.
  - destruct (if truthy ey then _ else _) as [s'|e'] eqn:He; [done|].
    inversion H; subst e'.
    destruct (truthy ey); by eapply as_date_raise_inv.
Qed.

(** [get_dates_dict] raises nothing but [ValueError] or [OverflowError],
    the exceptions of [date(...)]: no [CustomError400] and no
    [IndexError]. *)
Theorem get_dates_dict_raises_date_errors (today : date) (tokens : list string)
    (e : exn) :
  TokenHelper.get_dates_dict today tokens = Raise e →
  e = ValueError ∨ e = OverflowError.
Proof. exact (dates_raise_inv today tokens e). Qed.

Lemma get_dates_dict_raises_date_errors_witness :
  TokenHelper.get_dates_dict (mkdate 2017 11 4) ["2015"; "99999999999"]
  = Raise OverflowError ∧
  (OverflowError = ValueError ∨ OverflowError = OverflowError).
Proof.
  assert (H : TokenHelper.get_dates_dict (mkdate 2017 11 4) ["2015"; "99999999999"]
              = Raise OverflowError) by reflexivity.
  split; [exact H|].
  exact (get_dates_dict_raises_date_errors _ _ _ H).
Defined.

Lemma years_ok_of_dates (today : date) (tokens rest : list string)
    (d : gmap string string) :
  TokenHelper.get_dates_dict today tokens = Ok (d, rest) → years_ok tokens.
Proof.
  intros H Hlen.
  rewrite (get_dates_dict_spec today tokens) in H.
  pose proof (selected_years_truthy tokens) as Htruthy.
  assert (Hyear : ∀ tok m dd s, TokenHelper._as_date (PyStr tok) m dd = Ok s →
                                year_token_ok tok).
  { intros tok m dd s (y & Hint & Hv & _)%as_date_ok_inv.
    exists y. split; [done|]. unfold valid_date in Hv.
    rewrite !andb_true_iff, !Z.leb_le in Hv. lia. }
  destruct (filter is_int tokens) as [|a [|b [|c l]]] eqn:Hints;
    simpl in H, Htruthy, Hlen; try lia.
  - constructor.
  - rewrite Htruthy in H.
    destruct (TokenHelper._as_date _ 1 1) as [s|] eqn:Hs; simpl in H; [|done].
    constructor; [by eapply Hyear | constructor].
  - destruct Htruthy as [Ha Hb]. rewrite Ha, Hb in H.
    destruct (TokenHelper._as_date _ 1 1) as [s|] eqn:Hs; simpl in H; [|done].
    destruct (TokenHelper._as_date _ 12 31) as [s'|] eqn:Hs'; [|done].
    constructor; [by eapply Hyear|]. constructor; [by eapply Hyear | constructor].
Qed.

(** With [today] a date, [get_dates_dict] returns exactly when the
    integer tokens it selects (the only one, or the two) are years of the
    calendar. *)
Theorem get_dates_dict_returns_iff (today : date) (tokens : list string) :
  today_ok today = true →
  (∃ d rest, TokenHelper.get_dates_dict today tokens = Ok (d, rest))
  ↔ years_ok tokens.
Proof.
  intros Ht. split.
  - intros (d & rest & H). by eapply years_ok_of_dates.
  - by apply get_dates_dict_ok.
Qed.

Lemma get_dates_dict_returns_iff_witness :
  today_ok (mkdate 2017 11 4) = true ∧
  ((∃ d rest, TokenHelper.get_dates_dict (mkdate 2017 11 4) ["0"; "eop"] = Ok (d, rest))
   ↔ years_ok ["0"; "eop"]) ∧
  ¬ years_ok ["0"; "eop"].
Proof.
  assert (Ht : today_ok (mkdate 2017 11 4) = true) by reflexivity.
  pose proof (get_dates_dict_returns_iff _ ["0"; "eop"] Ht) as Hiff.
  split; [exact Ht|]. split; [exact Hiff|].
  intros Hok. apply Hiff in Hok as (d & rest & Hrun). discriminate Hrun.
Defined.

(** ** [InnerPath.__init__] *)

Lemma init_unfold (today : date) (tokens : list string) :
  InnerPath.init today tokens =
  match TokenHelper.get_dates_dict today tokens with
  | Raise e => Raise e
  | Ok (d, t1) =>
      match TokenHelper.fin t1 with
      | Raise e => Raise e
      | Ok (f, t2) =>
          match TokenHelper.rate t2 with
          | Raise e => Raise e
          | Ok (r, t3) =>
              match TokenHelper.agg t3 with
              | Raise e => Raise e
              | Ok (a, t4) =>
                  if truthy r && truthy a then Raise mutually_exclusive
                  else Ok (InnerPath.mk d f r a
                             (match t4 with
                              | tok :: _ => Some tok
                              | [] => if truthy r then r else None
                              end), t4)
              end
          end
      end
  end.
Proof.
  unfold InnerPath.init. mstep.
  destruct (TokenHelper.get_dates_dict today tokens) as [[d t1]|]; [|done].
  destruct (TokenHelper.fin t1) as [[f t2]|]; [|done].
  destruct (TokenHelper.rate t2) as [[r t3]|]; [|done].
  destruct (TokenHelper.agg t3) as [[a t4]|]; [|done].
  by destruct (truthy r && truthy a).
Qed.

Lemma InnerPath_init_raise (today : date) (inner_path : string) (e : exn) :
  InnerPath.__init__ today inner_path = Raise e ↔
  InnerPath.init today (InnerPath.tokenize inner_path) = Raise e.
Proof.
  unfold InnerPath.__init__, mbind, result_bind, rbind.
  destruct (InnerPath.init today (InnerPath.tokenize inner_path)) as [[ip final]|e'];
    [split; discriminate | split; intros [= ->]; reflexivity].
Qed.

Lemma InnerPath_init_ok (today : date) (inner_path : string) (ip : InnerPath.t) :
  InnerPath.__init__ today inner_path = Ok ip ↔
  ∃ final, InnerPath.init today (InnerPath.tokenize inner_path) = Ok (ip, final).
Proof.
  split; [apply InnerPath_init_ok_inv|].
  intros [final H]. unfold InnerPath.__init__. by rewrite H.
Qed.

Lemma dates_membership (today : date) (tokens rest : list string)
    (d : gmap string string) (p : string) :
  TokenHelper.get_dates_dict today tokens = Ok (d, rest) →
  isdigit p = false → p ∈ rest ↔ p ∈ tokens.
Proof.
  intros Hd Hp. split.
  - intros Hin. eapply elem_of_sublist; [done|]. by eapply get_dates_dict_sublist.
  - by eapply get_dates_dict_keeps.
Qed.

Lemma find_one_membership (allowed tokens rest : list string) (o : option string)
    (p : string) :
  TokenHelper._find_one allowed tokens = Ok (o, rest) →
  p ∉ allowed → p ∈ rest ↔ p ∈ tokens.
Proof.
  intros Hf Hp. split.
  - intros Hin. eapply elem_of_sublist; [done|]. by eapply find_one_sublist.
  - by eapply find_one_keeps.
Qed.

Lemma categories_disjoint_fin (p : string) :
  p ∈ ALLOWED_FINALISERS →
  (p ∉ ALLOWED_REAL_RATES) ∧ (p ∉ ALLOWED_AGGREGATORS).
Proof.
  unfold ALLOWED_FINALISERS, ALLOWED_REAL_RATES, ALLOWED_AGGREGATORS.
  rewrite !elem_of_cons, elem_of_nil; intros Hp;
    repeat (destruct Hp as [-> | Hp]; [compute_done|]); done.
Qed.

Lemma categories_disjoint_rate_agg (p : string) :
  p ∈ ALLOWED_REAL_RATES → p ∉ ALLOWED_AGGREGATORS.
Proof.
  unfold ALLOWED_REAL_RATES, ALLOWED_AGGREGATORS.
  rewrite !elem_of_cons, elem_of_nil; intros Hp;
    repeat (destruct Hp as [-> | Hp]; [compute_done|]); done.
Qed.

(** The lists on which the three category steps run have the same
    category values as the token list of the path. *)
Lemma steps_membership (today : date) (tokens t1 t2 t3 : list string)
    (d : gmap string string) (f r : option string) :
  TokenHelper.get_dates_dict today tokens = Ok (d, t1) →
  (∀ p, p ∈ ALLOWED_FINALISERS → p ∈ t1 ↔ p ∈ tokens) ∧
  (TokenHelper.fin t1 = Ok (f, t2) →
     (∀ p, p ∈ ALLOWED_REAL_RATES → p ∈ t2 ↔ p ∈ tokens) ∧
     (TokenHelper.rate t2 = Ok (r, t3) →
        ∀ p, p ∈ ALLOWED_AGGREGATORS → p ∈ t3 ↔ p ∈ tokens)).
Proof.
  intros Hd.
  assert (Hfin : ALLOWED_FINALISERS ∈ single_valued) by left.
  assert (Hrate : ALLOWED_REAL_RATES ∈ single_valued) by (right; left).
  assert (Hagg : ALLOWED_AGGREGATORS ∈ single_valued) by (right; right; left).
  split.
  { intros p Hp. destruct (category_value _ p Hfin Hp) as [_ Hdig].
    by apply (dates_membership today tokens t1 d). }
  intros Hf. split.
  { intros p Hp. destruct (category_value _ p Hrate Hp) as [_ Hdig].
    destruct (categories_disjoint p) as [Hnf _].
    rewrite (find_one_membership _ _ _ _ p Hf (Hnf Hp)).
    by apply (dates_membership today tokens t1 d). }
  intros Hr p Hp. destruct (category_value _ p Hagg Hp) as [_ Hdig].
  destruct (categories_disjoint p) as [_ Hn]. destruct (Hn Hp) as [Hnf Hnr].
  rewrite (find_one_membership _ _ _ _ p Hr Hnr).
  rewrite (find_one_membership _ _ _ _ p Hf Hnf).
  by apply (dates_membership today tokens t1 d).
Qed.

Lemma values_found_same (allowed t tokens : list string) :
  (∀ p, p ∈ allowed → p ∈ t ↔ p ∈ tokens) →
  filter (λ p, p ∈ t) allowed = filter (λ p, p ∈ tokens) allowed.
Proof.
  intros Hmem. induction allowed as [|a l IH]; [done|].
  rewrite !filter_cons.
  assert (Ha : a ∈ t ↔ a ∈ tokens) by (apply Hmem; left).
  rewrite IH by (intros p Hp; apply Hmem; by right).
  destruct (decide (a ∈ t)), (decide (a ∈ tokens)); tauto.
Qed.

Lemma ambiguous_values_found (allowed tokens : list string) :
  NoDup allowed →
  ambiguous allowed tokens ↔
  (2 ≤ length (filter (λ p, p ∈ tokens) allowed))%nat.
Proof.
  intros Hnd. split.
  - intros (a & b & Ha & Hb & Hab).
    apply (values_found_members allowed tokens) in Ha, Hb.
    destruct (filter (λ p, p ∈ tokens) allowed) as [|x [|y l]];
      simpl; [by apply elem_of_nil in Ha | | lia].
    apply list_elem_of_singleton in Ha, Hb. congruence.
  - intros Hlen.
    destruct (NoDup_two_distinct (filter (λ p, p ∈ tokens) allowed))
      as (a & b & Ha & Hb & Hab); [by apply NoDup_filter | done |].
    exists a, b. split_and!; [| |done]; by apply (values_found_members allowed tokens).
Qed.

Lemma rate_and_agg_raise (today : date) (tokens : list string) (r a : string) :
  r ∈ ALLOWED_REAL_RATES → r ∈ tokens →
  a ∈ ALLOWED_AGGREGATORS → a ∈ tokens →
  ∃ e, InnerPath.init today tokens = Raise e.
Proof.
  intros Hr Hrin Ha Hain.
  destruct (init_rate_and_agg today tokens r a Hr Hrin Ha Hain)
    as [(e & _ & Hrun) | [(allowed & vs & _ & _ & Hrun) | Hrun]]; by eexists.
Qed.

Lemma find_one_some (allowed tokens rest : list string) (x : string) :
  TokenHelper._find_one allowed tokens = Ok (Some x, rest) →
  x ∈ allowed ∧ x ∈ tokens.
Proof.
  intros [(? & _) | (x' & l1 & l2 & [= <-] & Hx & -> & _)]%find_one_ok_inv;
    [done|].
  split; [done|]. rewrite elem_of_app. right. left.
Qed.

Lemma truthy_Some (o : option string) :
  truthy o = true → ∃ x, o = Some x.
Proof. destruct o as [x|]; [by exists x | done]. Qed.

Lemma init_failure_kinds (today : date) (inner_path : string) (e : exn) :
  let tokens := InnerPath.tokenize inner_path in
  InnerPath.__init__ today inner_path = Raise e →
  (TokenHelper.get_dates_dict today tokens = Raise e ∧
   (e = ValueError ∨ e = OverflowError)) ∨
  (∃ allowed, allowed ∈ single_valued ∧ ambiguous allowed tokens ∧
              e = CustomError400 (Values (filter (λ p, p ∈ tokens) allowed))) ∨
  (e = mutually_exclusive ∧
   ∃ r a, r ∈ ALLOWED_REAL_RATES ∧ r ∈ tokens ∧
          a ∈ ALLOWED_AGGREGATORS ∧ a ∈ tokens).
Proof.
  intros tokens Hraise. apply InnerPath_init_raise in Hraise.
  fold tokens in Hraise. rewrite init_unfold in Hraise.
  assert (Hfin : ALLOWED_FINALISERS ∈ single_valued) by left.
  assert (Hrate : ALLOWED_REAL_RATES ∈ single_valued) by (right; left).
  assert (Hagg : ALLOWED_AGGREGATORS ∈ single_valued) by (right; right; left).
  assert (Hamb : ∀ allowed t e',
            allowed ∈ single_valued →
            (∀ p, p ∈ allowed → p ∈ t ↔ p ∈ tokens) →
            TokenHelper._find_one allowed t = Raise e' →
            ambiguous allowed tokens ∧
            e' = CustomError400 (Values (filter (λ p, p ∈ tokens) allowed))).
  { intros allowed t e' Hcat Hmem [-> Hlen]%find_one_raise_inv.
    rewrite (values_found_same allowed t tokens Hmem) in Hlen |- *.
    split; [|done].
    by apply ambiguous_values_found; [apply single_valued_NoDup|]. }
  destruct (TokenHelper.get_dates_dict today tokens) as [[d t1]|e1] eqn:Hd.
  2:{ inversion Hraise; subst e1. left. split; [done|].
      by eapply dates_raise_inv. }
  right.
  destruct (steps_membership today tokens t1 t1 t1 d None None Hd) as [Hm1 _].
  destruct (TokenHelper.fin t1) as [[f t2]|e2] eqn:Hf.
  2:{ inversion Hraise; subst e2. left. exists ALLOWED_FINALISERS.
      destruct (Hamb _ _ _ Hfin Hm1 Hf). by split_and!. }
  destruct (steps_membership today tokens t1 t2 t2 d f None Hd) as [_ Hm2'].
  destruct (Hm2' Hf) as [Hm2 _].
  destruct (TokenHelper.rate t2) as [[r t3]|e3] eqn:Hr.
  2:{ inversion Hraise; subst e3. left. exists ALLOWED_REAL_RATES.
      destruct (Hamb _ _ _ Hrate Hm2 Hr). by split_and!. }
  destruct (steps_membership today tokens t1 t2 t3 d f r Hd) as [_ Hm3'].
  destruct (Hm3' Hf) as [_ Hm3'']. specialize (Hm3'' Hr).
  destruct (TokenHelper.agg t3) as [[a t4]|e4] eqn:Ha.
  2:{ inversion Hraise; subst e4. left. exists ALLOWED_AGGREGATORS.
      destruct (Hamb _ _ _ Hagg Hm3'' Ha). by split_and!. }
  destruct (truthy r && truthy a) eqn:Hra; [|done].
  inversion Hraise; subst e. right. split; [done|].
  apply andb_prop in Hra as [[x ->]%truthy_Some [z ->]%truthy_Some].
  destruct (find_one_some _ _ _ _ Hr) as [Hx Hxin].
  destruct (find_one_some _ _ _ _ Ha) as [Hz Hzin].
  exists x, z. split_and!; [done | by apply Hm2 | done | by apply Hm3''].
Qed.

(** Why [InnerPath(inner_path)] fails. There are three ways: [date(...)]
    raised [ValueError] or [OverflowError] on a selected year; a category
    has two tokens of different value, and the error carries the values of
    that category that occur in the path, in the order of the category;
    or a rate and an aggregator are both in the path. *)
Theorem InnerPath_failure_kinds (today : date) (inner_path : string) (e : exn) :
  let tokens := InnerPath.tokenize inner_path in
  InnerPath.__init__ today inner_path = Raise e →
  (TokenHelper.get_dates_dict today tokens = Raise e ∧
   (e = ValueError ∨ e = OverflowError)) ∨
  (∃ allowed, allowed ∈ single_valued ∧ ambiguous allowed tokens ∧
              e = CustomError400 (Values (filter (λ p, p ∈ tokens) allowed))) ∨
  (e = mutually_exclusive ∧
   ∃ r a, r ∈ ALLOWED_REAL_RATES ∧ r ∈ tokens ∧
          a ∈ ALLOWED_AGGREGATORS ∧ a ∈ tokens).
Proof. exact (init_failure_kinds today inner_path e). Qed.

Lemma InnerPath_failure_kinds_witness :
  InnerPath.__init__ (mkdate 2017 11 4) "csv/eop/json/avg"
  = Raise (CustomError400 (Values ["csv"; "json"])) ∧
  ((TokenHelper.get_dates_dict (mkdate 2017 11 4) (InnerPath.tokenize "csv/eop/json/avg")
    = Raise (CustomError400 (Values ["csv"; "json"])) ∧
    (CustomError400 (Values ["csv"; "json"]) = ValueError ∨
     CustomError400 (Values ["csv"; "json"]) = OverflowError)) ∨
   (∃ allowed, allowed ∈ single_valued ∧
               ambiguous allowed (InnerPath.tokenize "csv/eop/json/avg") ∧
               CustomError400 (Values ["csv"; "json"])
               = CustomError400
                   (Values (filter (λ p, p ∈ InnerPath.tokenize "csv/eop/json/avg")
                              allowed))) ∨
   (CustomError400 (Values ["csv"; "json"]) = mutually_exclusive ∧
    ∃ r a, r ∈ ALLOWED_REAL_RATES ∧ r ∈ InnerPath.tokenize "csv/eop/json/avg" ∧
           a ∈ ALLOWED_AGGREGATORS ∧ a ∈ InnerPath.tokenize "csv/eop/json/avg")).
Proof.
  assert (H : InnerPath.__init__ (mkdate 2017 11 4) "csv/eop/json/avg"
              = Raise (CustomError400 (Values ["csv"; "json"]))) by reflexivity.
  split; [exact H|].
  exact (InnerPath_failure_kinds _ _ _ H).
Defined.

(** When [InnerPath(inner_path)] returns. With [today] a date, it does
    exactly when the selected year tokens are years of the calendar, no
    category has two tokens of different value, and the path does not
    hold both a rate and an aggregator. *)
Theorem InnerPath_returns_iff (today : date) (inner_path : string) :
  let tokens := InnerPath.tokenize inner_path in
  today_ok today = true →
  (∃ ip, InnerPath.__init__ today inner_path = Ok ip) ↔
  years_ok tokens ∧
  (∀ allowed, allowed ∈ single_valued → ¬ ambiguous allowed tokens) ∧
  ¬ (∃ r a, r ∈ ALLOWED_REAL_RATES ∧ r ∈ tokens ∧
            a ∈ ALLOWED_AGGREGATORS ∧ a ∈ tokens).
Proof.
  intros tokens Ht. split.
  - intros [ip Hok].
    destruct (InnerPath_init_ok_inv _ _ _ Hok) as [final Hrun]. fold tokens in Hrun.
    destruct (init_ok_inv _ _ _ _ Hrun)
      as (d & f & r & a & t1 & t2 & t3 & Hd & Hf & Hr & Ha & _ & _).
    destruct (steps_membership today tokens t1 t2 t3 d f r Hd) as [Hm1 Hm].
    destruct (Hm Hf) as [Hm2 Hm3]. specialize (Hm3 Hr).
    split_and!.
    + by eapply years_ok_of_dates.
    + intros allowed Hcat Hamb.
      apply ambiguous_values_found in Hamb; [|by apply single_valued_NoDup].
      unfold single_valued in Hcat. rewrite !elem_of_cons, elem_of_nil in Hcat.
      destruct Hcat as [-> | [-> | [-> | []]]].
      * rewrite <- (values_found_same _ t1 tokens Hm1) in Hamb.
        unfold TokenHelper.fin in Hf. by rewrite find_one_ambiguous in Hf.
      * rewrite <- (values_found_same _ t2 tokens Hm2) in Hamb.
        unfold TokenHelper.rate in Hr. by rewrite find_one_ambiguous in Hr.
      * rewrite <- (values_found_same _ t3 tokens Hm3) in Hamb.
        unfold TokenHelper.agg in Ha. by rewrite find_one_ambiguous in Ha.
    + intros (x & z & Hx & Hxin & Hz & Hzin).
      destruct (rate_and_agg_raise today tokens x z Hx Hxin Hz Hzin) as [e He].
      by rewrite Hrun in He.
  - intros (Hyears & Hunamb & Hnot).
    destruct (InnerPath.__init__ today inner_path) as [ip|e] eqn:Hrun;
      [by exists ip|].
    exfalso.
    destruct (init_failure_kinds today inner_path e Hrun)
      as [[Hd _] | [(allowed & Hcat & Hamb & _) | [_ Hboth]]].
    + destruct (get_dates_dict_ok today tokens Ht Hyears) as (d & t1 & Hok).
      fold tokens in Hd. by rewrite Hok in Hd.
    + by apply (Hunamb allowed).
    + by apply Hnot.
Qed.

Lemma InnerPath_returns_iff_witness :
  today_ok (mkdate 2017 11 4) = true ∧
  (∃ ip, InnerPath.__init__ (mkdate 2017 11 4) "bln_rub/rog/2016" = Ok ip) ∧
  years_ok (InnerPath.tokenize "bln_rub/rog/2016") ∧
  (∀ allowed, allowed ∈ single_valued →
              ¬ ambiguous allowed (InnerPath.tokenize "bln_rub/rog/2016")) ∧
  ¬ (∃ r a, r ∈ ALLOWED_REAL_RATES ∧ r ∈ InnerPath.tokenize "bln_rub/rog/2016" ∧
            a ∈ ALLOWED_AGGREGATORS ∧ a ∈ InnerPath.tokenize "bln_rub/rog/2016").
Proof.
  assert (Ht : today_ok (mkdate 2017 11 4) = true) by reflexivity.
  assert (Hok : ∃ ip, InnerPath.__init__ (mkdate 2017 11 4) "bln_rub/rog/2016" = Ok ip)
    by (eexists; vm_compute; reflexivity).
  split; [exact Ht|]. split; [exact Hok|].
  exact (proj1 (InnerPath_returns_iff _ "bln_rub/rog/2016" Ht) Hok).
Defined.

Lemma find_one_result (allowed tokens rest : list string) (o : option string) :
  TokenHelper._find_one allowed tokens = Ok (o, rest) →
  (∀ x, o = Some x → x ∈ allowed ∧ x ∈ tokens) ∧
  (o = None → ∀ p, p ∈ allowed → p ∉ tokens).
Proof.
  intros H. split.
  - intros x ->. by eapply find_one_some.
  - intros ->.
    by apply find_one_ok_inv in H as [(_ & _ & ?) | (x & l1 & l2 & ? & _)].
Qed.

Lemma init_fields (today : date) (inner_path : string) (ip : InnerPath.t) :
  let tokens := InnerPath.tokenize inner_path in
  InnerPath.__init__ today inner_path = Ok ip →
  ((∀ x, InnerPath.fin ip = Some x → x ∈ ALLOWED_FINALISERS ∧ x ∈ tokens) ∧
   (InnerPath.fin ip = None → ∀ p, p ∈ ALLOWED_FINALISERS → p ∉ tokens)) ∧
  ((∀ x, InnerPath.rate ip = Some x → x ∈ ALLOWED_REAL_RATES ∧ x ∈ tokens) ∧
   (InnerPath.rate ip = None → ∀ p, p ∈ ALLOWED_REAL_RATES → p ∉ tokens)) ∧
  ((∀ x, InnerPath.agg ip = Some x → x ∈ ALLOWED_AGGREGATORS ∧ x ∈ tokens) ∧
   (InnerPath.agg ip = None → ∀ p, p ∈ ALLOWED_AGGREGATORS → p ∉ tokens)) ∧
  (InnerPath.rate ip = None ∨ InnerPath.agg ip = None) ∧
  is_Some (InnerPath.dates ip !! "end_date").
Proof.
  intros tokens Hok.
  destruct (InnerPath_init_ok_inv _ _ _ Hok) as [final Hrun]. fold tokens in Hrun.
  destruct (init_ok_inv _ _ _ _ Hrun)
    as (d & f & r & a & t1 & t2 & t3 & Hd & Hf & Hr & Ha & Hra & ->).
  destruct (steps_membership today tokens t1 t2 t3 d f r Hd) as [Hm1 Hm].
  destruct (Hm Hf) as [Hm2 Hm3]. specialize (Hm3 Hr).
  destruct (find_one_result _ _ _ _ Hf) as [Hf1 Hf2].
  destruct (find_one_result _ _ _ _ Hr) as [Hr1 Hr2].
  destruct (find_one_result _ _ _ _ Ha) as [Ha1 Ha2].
  simpl. split_and!.
  - intros x Hx. destruct (Hf1 x Hx). split; [done|]. by apply Hm1.
  - intros Hn p Hp Hin. apply (Hf2 Hn p Hp). by apply Hm1.
  - intros x Hx. destruct (Hr1 x Hx). split; [done|]. by apply Hm2.
  - intros Hn p Hp Hin. apply (Hr2 Hn p Hp). by apply Hm2.
  - intros x Hx. destruct (Ha1 x Hx). split; [done|]. by apply Hm3.
  - intros Hn p Hp Hin. apply (Ha2 Hn p Hp). by apply Hm3.
  - destruct r as [x|]; [|by left]. destruct a as [z|]; [|by right].
    exfalso.
    destruct (Hr1 x eq_refl) as [Hx _]. destruct (Ha1 z eq_refl) as [Hz _].
    destruct (category_value ALLOWED_REAL_RATES x) as [Hx' _];
      [right; left | done |].
    destruct (category_value ALLOWED_AGGREGATORS z) as [Hz' _];
      [right; right; left | done |].
    by rewrite Hx', Hz' in Hra.
  - by apply (dates_result_inv today tokens t1 d Hd).
Qed.

(** The fields of an [InnerPath]. A finaliser, rate or aggregator that is
    set is a value of its category that occurs in the path; one that is
    [None] means that no value of the category occurs in the path. Rate
    and aggregator are never both set, and the dates always hold
    ['end_date']. *)
Theorem InnerPath_fields (today : date) (inner_path : string) (ip : InnerPath.t) :
  let tokens := InnerPath.tokenize inner_path in
  InnerPath.__init__ today inner_path = Ok ip →
  ((∀ x, InnerPath.fin ip = Some x → x ∈ ALLOWED_FINALISERS ∧ x ∈ tokens) ∧
   (InnerPath.fin ip = None → ∀ p, p ∈ ALLOWED_FINALISERS → p ∉ tokens)) ∧
  ((∀ x, InnerPath.rate ip = Some x → x ∈ ALLOWED_REAL_RATES ∧ x ∈ tokens) ∧
   (InnerPath.rate ip = None → ∀ p, p ∈ ALLOWED_REAL_RATES → p ∉ tokens)) ∧
  ((∀ x, InnerPath.agg ip = Some x → x ∈ ALLOWED_AGGREGATORS ∧ x ∈ tokens) ∧
   (InnerPath.agg ip = None → ∀ p, p ∈ ALLOWED_AGGREGATORS → p ∉ tokens)) ∧
  (InnerPath.rate ip = None ∨ InnerPath.agg ip = None) ∧
  is_Some (InnerPath.dates ip !! "end_date").
Proof. exact (init_fields today inner_path ip). Qed.

Lemma InnerPath_fields_witness :
  let tokens := InnerPath.tokenize "eop/2015/2017/csv" in
  let ip := InnerPath.mk
              (<["end_date" := "2017-12-31"]> (<["start_date" := "2015-01-01"]> ∅))
              (Some "csv") None (Some "eop") None in
  InnerPath.__init__ (mkdate 2017 11 4) "eop/2015/2017/csv" = Ok ip ∧
  ((∀ x, InnerPath.fin ip = Some x → x ∈ ALLOWED_FINALISERS ∧ x ∈ tokens) ∧
   (InnerPath.fin ip = None → ∀ p, p ∈ ALLOWED_FINALISERS → p ∉ tokens)) ∧
  ((∀ x, InnerPath.rate ip = Some x → x ∈ ALLOWED_REAL_RATES ∧ x ∈ tokens) ∧
   (InnerPath.rate ip = None → ∀ p, p ∈ ALLOWED_REAL_RATES → p ∉ tokens)) ∧
  ((∀ x, InnerPath.agg ip = Some x → x ∈ ALLOWED_AGGREGATORS ∧ x ∈ tokens) ∧
   (InnerPath.agg ip = None → ∀ p, p ∈ ALLOWED_AGGREGATORS → p ∉ tokens)) ∧
  (InnerPath.rate ip = None ∨ InnerPath.agg ip = None) ∧
  is_Some (InnerPath.dates ip !! "end_date").
Proof.
  intros tokens ip.
  assert (H : InnerPath.__init__ (mkdate 2017 11 4) "eop/2015/2017/csv" = Ok ip)
    by (vm_compute; reflexivity).
  split; [exact H|].
  exact (InnerPath_fields _ _ _ H).
Defined.

Lemma after_years_no_integers (tokens : list string) (p : string) :
  (length (filter is_int tokens) ≤ 2)%nat →
  p ∈ after_years tokens → isdigit p = false.
Proof.
  unfold after_years, non_integers. intros Hlen Hin.
  destruct (isdigit p) eqn:Hp; [|done]. exfalso.
  destruct (filter is_int tokens) as [|a [|b [|c l]]] eqn:Hints;
    simpl in Hlen; try lia.
  - eapply (filter_nil_not_elem_of is_int tokens p); [done| |done].
    by rewrite Hp.
  - apply list_elem_of_filter in Hin as [Hnot _]. apply Hnot. by rewrite Hp.
  - apply list_elem_of_filter in Hin as [Hnot _]. apply Hnot. by rewrite Hp.
Qed.

(** Where the unit comes from. A unit is always a token of the path,
    and with at most two integer tokens in the path it is not an integer
    token. When there is no unit there is no rate either, and every token
    of the path is an integer, a finaliser or an aggregator. *)
Theorem InnerPath_unit_origin (today : date) (inner_path : string) (ip : InnerPath.t) :
  let tokens := InnerPath.tokenize inner_path in
  InnerPath.__init__ today inner_path = Ok ip →
  (∀ u, InnerPath.unit ip = Some u →
        u ∈ tokens ∧
        ((length (filter is_int tokens) ≤ 2)%nat → isdigit u = false)) ∧
  (InnerPath.unit ip = None →
     InnerPath.rate ip = None ∧
     ∀ tok, tok ∈ tokens →
            Is_true (isdigit tok) ∨ tok ∈ ALLOWED_FINALISERS ∨
            tok ∈ ALLOWED_AGGREGATORS).
Proof.
  intros tokens Hok.
  destruct (init_fields today inner_path ip Hok)
    as (_ & [Hrate_some Hrate_none] & _).
  fold tokens in Hrate_some, Hrate_none.
  destruct (InnerPath_init_ok_inv _ _ _ Hok) as [final Hrun]. fold tokens in Hrun.
  destruct (init_ok_inv _ _ _ _ Hrun)
    as (d & f & r & a & t1 & t2 & t3 & Hd & Hf & Hr & Ha & Hra & ->).
  simpl in *.
  assert (Ht1 : t1 = after_years tokens)
    by apply (dates_result_inv today tokens t1 d Hd).
  assert (Hsub : final `sublist_of` t1).
  { etrans; [by eapply find_one_sublist|].
    etrans; [by eapply find_one_sublist|]. by eapply find_one_sublist. }
  assert (Hsub1 : t1 `sublist_of` tokens) by (by eapply get_dates_dict_sublist).
  split.
  - intros u Hu. destruct final as [|tok rest].
    + destruct r as [x|]; [|done].
      destruct (category_value ALLOWED_REAL_RATES x) as [Hx Hxd];
        [right; left | by apply Hrate_some |].
      rewrite Hx in Hu. inversion Hu; subst u.
      split; [by apply Hrate_some | done].
    + inversion Hu; subst u.
      assert (Hin1 : tok ∈ t1) by (eapply elem_of_sublist; [left | done]).
      split; [by eapply elem_of_sublist|].
      intros Hlen. apply (after_years_no_integers tokens); [done|].
      by rewrite <- Ht1.
  - intros Hu. destruct final as [|tok rest]; [|done].
    assert (Hr_none : r = None).
    { destruct r as [x|]; [|done].
      destruct (category_value ALLOWED_REAL_RATES x) as [Hx _];
        [right; left | by apply Hrate_some |].
      by rewrite Hx in Hu. }
    split; [done|].
    intros tok Htok.
    destruct (isdigit tok) eqn:Hdig; [by left|]. right.
    pose proof (get_dates_dict_keeps _ _ _ _ tok Hd Hdig Htok) as H1.
    destruct (decide (tok ∈ ALLOWED_FINALISERS)) as [?|Hnf]; [by left|]. right.
    pose proof (find_one_keeps _ _ _ _ tok Hf Hnf H1) as H2.
    assert (Hnr : tok ∉ ALLOWED_REAL_RATES).
    { intros Hin. by apply (Hrate_none Hr_none tok). }
    pose proof (find_one_keeps _ _ _ _ tok Hr Hnr H2) as H3.
    destruct (decide (tok ∈ ALLOWED_AGGREGATORS)) as [?|Hna]; [done|].
    pose proof (find_one_keeps _ _ _ _ tok Ha Hna H3) as H4.
    by apply elem_of_nil in H4.
Qed.

Lemma InnerPath_unit_origin_witness :
  let tokens := InnerPath.tokenize "2015/bln_rub/csv/tkm" in
  let ip := InnerPath.mk
              (<["end_date" := "2017-11-04"]> (<["start_date" := "2015-01-01"]> ∅))
              (Some "csv") None None (Some "bln_rub") in
  InnerPath.__init__ (mkdate 2017 11 4) "2015/bln_rub/csv/tkm" = Ok ip ∧
  (∀ u, InnerPath.unit ip = Some u →
        u ∈ tokens ∧
        ((length (filter is_int tokens) ≤ 2)%nat → isdigit u = false)) ∧
  (InnerPath.unit ip = None →
     InnerPath.rate ip = None ∧
     ∀ tok, tok ∈ tokens →
            Is_true (isdigit tok) ∨ tok ∈ ALLOWED_FINALISERS ∨
            tok ∈ ALLOWED_AGGREGATORS).
Proof.
  intros tokens ip.
  assert (H : InnerPath.__init__ (mkdate 2017 11 4) "2015/bln_rub/csv/tkm" = Ok ip)
    by (vm_compute; reflexivity).
  split; [exact H|].
  exact (InnerPath_unit_origin _ _ _ H).
Defined.

Lemma after_years_permutation (tokens tokens' : list string) :
  tokens ≡ₚ tokens' → filter is_int tokens = filter is_int tokens' →
  after_years tokens ≡ₚ after_years tokens'.
Proof.
  intros Hperm Hints. unfold after_years, non_integers. rewrite <- Hints.
  destruct (filter is_int tokens) as [|a [|b [|c l]]]; by rewrite ?Hperm.
Qed.

(** The order of the tokens matters to [InnerPath.__init__] only through
    the order of the integer tokens and through the unit. On two
    orderings of the same tokens that list the integer tokens in the same
    order, it raises the same exception, or it returns the same dates,
    finaliser, rate and aggregator and leaves the same tokens. *)
Theorem InnerPath_order_independent (today : date) (tokens tokens' : list string) :
  tokens ≡ₚ tokens' →
  filter is_int tokens = filter is_int tokens' →
  same_outcome
    (λ r r', InnerPath.dates r.1 = InnerPath.dates r'.1 ∧
             InnerPath.fin r.1 = InnerPath.fin r'.1 ∧
             InnerPath.rate r.1 = InnerPath.rate r'.1 ∧
             InnerPath.agg r.1 = InnerPath.agg r'.1 ∧
             r.2 ≡ₚ r'.2)
    (InnerPath.init today tokens) (InnerPath.init today tokens').
Proof.
  intros Hperm Hints.
  pose proof (after_years_permutation _ _ Hperm Hints) as Hp1.
  rewrite !init_unfold, !get_dates_dict_spec. rewrite <- Hints.
  cbv zeta.
  destruct (if truthy (selected_years (filter is_int tokens)).1 then _ else _)
    as [result|e]; [|done].
  destruct (if truthy (selected_years (filter is_int tokens)).2 then _ else _)
    as [s|e]; [|done].
  pose proof (find_one_permutation ALLOWED_FINALISERS _ _ Hp1) as Hfin.
  unfold TokenHelper.fin.
  destruct (TokenHelper._find_one ALLOWED_FINALISERS (after_years tokens))
    as [[f t2]|e],
    (TokenHelper._find_one ALLOWED_FINALISERS (after_years tokens'))
    as [[f' t2']|e']; simpl in Hfin; try done.
  destruct Hfin as [<- Hp2].
  pose proof (find_one_permutation ALLOWED_REAL_RATES _ _ Hp2) as Hrate.
  unfold TokenHelper.rate.
  destruct (TokenHelper._find_one ALLOWED_REAL_RATES t2) as [[r t3]|e],
    (TokenHelper._find_one ALLOWED_REAL_RATES t2') as [[r' t3']|e'];
    simpl in Hrate; try done.
  destruct Hrate as [<- Hp3].
  pose proof (find_one_permutation ALLOWED_AGGREGATORS _ _ Hp3) as Hagg.
  unfold TokenHelper.agg.
  destruct (TokenHelper._find_one ALLOWED_AGGREGATORS t3) as [[a t4]|e],
    (TokenHelper._find_one ALLOWED_AGGREGATORS t3') as [[a' t4']|e'];
    simpl in Hagg; try done.
  destruct Hagg as [<- Hp4].
  destruct (truthy r && truthy a); simpl; done.
Qed.

Lemma InnerPath_order_independent_witness :
  ["csv"; "2015"; "eop"; "2017"] ≡ₚ ["2015"; "2017"; "eop"; "csv"] ∧
  filter is_int ["csv"; "2015"; "eop"; "2017"]
  = filter is_int ["2015"; "2017"; "eop"; "csv"] ∧
  same_outcome
    (λ r r', InnerPath.dates r.1 = InnerPath.dates r'.1 ∧
             InnerPath.fin r.1 = InnerPath.fin r'.1 ∧
             InnerPath.rate r.1 = InnerPath.rate r'.1 ∧
             InnerPath.agg r.1 = InnerPath.agg r'.1 ∧
             r.2 ≡ₚ r'.2)
    (InnerPath.init (mkdate 2017 11 4) ["csv"; "2015"; "eop"; "2017"])
    (InnerPath.init (mkdate 2017 11 4) ["2015"; "2017"; "eop"; "csv"]).
Proof.
  assert (H1 : ["csv"; "2015"; "eop"; "2017"] ≡ₚ ["2015"; "2017"; "eop"; "csv"]).
  { apply (Permutation_trans (l' := ["2015"; "csv"; "eop"; "2017"]));
      [apply perm_swap|]. apply perm_skip.
    change (["csv"; "eop"] ++ ["2017"] ≡ₚ ["2017"] ++ ["eop"; "csv"]).
    rewrite Permutation_app_comm. apply perm_skip, perm_swap. }
  assert (H2 : filter is_int ["csv"; "2015"; "eop"; "2017"]
               = filter is_int ["2015"; "2017"; "eop"; "csv"]) by reflexivity.
  split; [exact H1|]. split; [exact H2|].
  exact (InnerPath_order_independent (mkdate 2017 11 4) _ _ H1 H2).
Defined.

(** ** [CustomGET.__init__] and [CustomGET.make_freq] *)

Lemma make_freq_not_allowed (freq : string) :
  freq ∉ ALLOWED_FREQUENCIES →
  CustomGET.make_freq freq
  = Raise (CustomError400 (Message ("Frequency <" +:+ freq +:+ "> is not valid"))).
Proof.
  intros H. unfold CustomGET.make_freq. by rewrite bool_decide_eq_true_2.
Qed.

Lemma CustomGET_outcomes (today : date) (domain varname freq inner_path : string) :
  (∀ e, InnerPath.__init__ today inner_path = Raise e →
        CustomGET.__init__ today domain varname freq inner_path = Raise e) ∧
  (∀ ip, InnerPath.__init__ today inner_path = Ok ip →
         freq ∉ ALLOWED_FREQUENCIES →
         CustomGET.__init__ today domain varname freq inner_path
         = Raise (CustomError400
                    (Message ("Frequency <" +:+ freq +:+ "> is not valid")))) ∧
  ((∃ params, CustomGET.__init__ today domain varname freq inner_path = Ok params)
   ↔ (∃ ip, InnerPath.__init__ today inner_path = Ok ip) ∧
     freq ∈ ALLOWED_FREQUENCIES).
Proof.
  unfold CustomGET.__init__, mbind, result_bind, rbind.
  split_and!.
  - by intros e ->.
  - intros ip -> Hfreq. by rewrite (make_freq_not_allowed freq Hfreq).
  - destruct (InnerPath.__init__ today inner_path) as [ip|e].
    + destruct (decide (freq ∈ ALLOWED_FREQUENCIES)) as [Hin|Hnin].
      * rewrite (make_freq_allowed freq Hin). split; [|by eexists].
        intros _. split; [by exists ip | done].
      * rewrite (make_freq_not_allowed freq Hnin).
        split; [by intros [? ?] | by intros [_ ?]].
    + split; [by intros [? ?] | by intros [[? ?] _]].
Qed.

(** The errors of [CustomGET(domain, varname, freq, inner_path)]. An
    exception of [InnerPath(inner_path)] comes first, whatever the
    frequency; with a good inner path, a frequency outside
    [ALLOWED_FREQUENCIES] raises [CustomError400] with the frequency in
    the message; the object is built exactly when the inner path is good
    and the frequency is allowed. *)
Theorem CustomGET_error_order (today : date) (domain varname freq inner_path : string) :
  (∀ e, InnerPath.__init__ today inner_path = Raise e →
        CustomGET.__init__ today domain varname freq inner_path = Raise e) ∧
  (∀ ip, InnerPath.__init__ today inner_path = Ok ip →
         freq ∉ ALLOWED_FREQUENCIES →
         CustomGET.__init__ today domain varname freq inner_path
         = Raise (CustomError400
                    (Message ("Frequency <" +:+ freq +:+ "> is not valid")))) ∧
  ((∃ params, CustomGET.__init__ today domain varname freq inner_path = Ok params)
   ↔ (∃ ip, InnerPath.__init__ today inner_path = Ok ip) ∧
     freq ∈ ALLOWED_FREQUENCIES).
Proof. exact (CustomGET_outcomes today domain varname freq inner_path). Qed.

Lemma CustomGET_error_order_witness :
  InnerPath.__init__ (mkdate 2017 11 4) "rog/eop" = Raise mutually_exclusive ∧
  CustomGET.__init__ (mkdate 2017 11 4) "ru" "CPI" "z" "rog/eop"
  = Raise mutually_exclusive ∧
  ("z" ∉ ALLOWED_FREQUENCIES) ∧
  CustomGET.__init__ (mkdate 2017 11 4) "ru" "CPI" "z" "rog"
  = Raise (CustomError400 (Message "Frequency <z> is not valid")).
Proof.
  assert (H1 : InnerPath.__init__ (mkdate 2017 11 4) "rog/eop"
               = Raise mutually_exclusive) by reflexivity.
  assert (H2 : InnerPath.__init__ (mkdate 2017 11 4) "rog"
               = Ok (InnerPath.mk (<["end_date" := "2017-11-04"]> ∅)
                       None (Some "rog") None (Some "rog")))
    by (vm_compute; reflexivity).
  assert (H3 : "z" ∉ ALLOWED_FREQUENCIES) by compute_done.
  split; [exact H1|].
  split; [exact (proj1 (CustomGET_error_order _ "ru" "CPI" "z" "rog/eop") _ H1)|].
  split; [exact H3|].
  exact (proj1 (proj2 (CustomGET_error_order _ "ru" "CPI" "z" "rog")) _ H2 H3).
Defined.

(** The parameters that [CustomGET] builds: the frequency as given, and
    it is an allowed one; the dates of the inner path, copied, so
    ['end_date'] is always there; and no key besides ['freq'], ['name'],
    ['start_date'] and ['end_date']. The domain has no effect on them. *)
Theorem CustomGET_params (today : date) (domain varname freq inner_path : string)
    (params : gmap string string) :
  CustomGET.__init__ today domain varname freq inner_path = Ok params →
  ∃ ip, InnerPath.__init__ today inner_path = Ok ip ∧
        params !! "freq" = Some freq ∧
        freq ∈ ALLOWED_FREQUENCIES ∧
        params !! "start_date" = InnerPath.dates ip !! "start_date" ∧
        params !! "end_date" = InnerPath.dates ip !! "end_date" ∧
        is_Some (params !! "end_date") ∧
        (∀ k, k ∉ PARAM_KEYS → params !! k = None) ∧
        (∀ domain', CustomGET.__init__ today domain' varname freq inner_path
                    = Ok params).
Proof.
  intros Hok.
  assert (Hboth : (∃ ip, InnerPath.__init__ today inner_path = Ok ip) ∧
                  freq ∈ ALLOWED_FREQUENCIES).
  { apply (CustomGET_outcomes today domain varname freq inner_path). by eexists. }
  destruct Hboth as [[ip Hip] Hfreq].
  destruct (init_fields today inner_path ip Hip) as (_ & _ & _ & _ & Hend).
  pose proof (λ k, InnerPath_dates_keys today inner_path ip k Hip) as Hkeys.
  exists ip. split; [done|].
  unfold CustomGET.__init__, mbind, result_bind, rbind in Hok |- *.
  rewrite Hip in Hok |- *. rewrite (make_freq_allowed freq Hfreq) in Hok |- *.
  inversion Hok; subst params.
  unfold InnerPath.get_dates, InnerPath.get_unit.
  split_and!; try done.
  - rewrite lookup_union_r by (by apply Hkeys).
    rewrite lookup_insert_ne by done. by rewrite lookup_singleton_eq.
  - destruct (InnerPath.dates ip !! "start_date") as [s|] eqn:Hs.
    + by apply lookup_union_Some_l.
    + rewrite lookup_union_r by done.
      rewrite lookup_insert_ne by done. by rewrite lookup_singleton_ne.
  - destruct Hend as [s Hs]. rewrite Hs. by apply lookup_union_Some_l.
  - destruct Hend as [s Hs]. exists s. by apply lookup_union_Some_l.
  - intros k Hk. unfold PARAM_KEYS in Hk.
    rewrite !not_elem_of_cons in Hk. destruct Hk as (? & ? & ? & ? & _).
    rewrite lookup_union_r by (by apply Hkeys).
    rewrite lookup_insert_ne by done. by rewrite lookup_singleton_ne.
Qed.

Lemma CustomGET_params_witness :
  let params : gmap string string :=
    <["end_date" := "2017-12-31"]>
      (<["start_date" := "2015-01-01"]>
         (<["name" := "BRENT"]> {["freq" := "m"]})) in
  CustomGET.__init__ (mkdate 2017 11 4) "oil" "BRENT" "m" "eop/2015/2017/csv"
  = Ok params ∧
  ∃ ip, InnerPath.__init__ (mkdate 2017 11 4) "eop/2015/2017/csv" = Ok ip ∧
        params !! "freq" = Some "m" ∧
        "m" ∈ ALLOWED_FREQUENCIES ∧
        params !! "start_date" = InnerPath.dates ip !! "start_date" ∧
        params !! "end_date" = InnerPath.dates ip !! "end_date" ∧
        is_Some (params !! "end_date") ∧
        (∀ k, k ∉ PARAM_KEYS → params !! k = None) ∧
        (∀ domain', CustomGET.__init__ (mkdate 2017 11 4) domain' "BRENT" "m"
                      "eop/2015/2017/csv" = Ok params).
Proof.
  intros params.
  assert (H : CustomGET.__init__ (mkdate 2017 11 4) "oil" "BRENT" "m" "eop/2015/2017/csv"
              = Ok params) by (vm_compute; reflexivity).
  split; [exact H|].
  exact (CustomGET_params _ _ _ _ _ _ H).
Defined.

(** ** The tokenizer of [InnerPath.__init__] *)

Lemma split_not_nil (sep : ascii) (s : string) : split sep s ≠ [].
Proof.
  destruct s as [|c s]; simpl; [done|].
  destruct (decide (c = sep)); [done|]. by destruct (split sep s).
Qed.

Lemma split_app (sep : ascii) (a b : string) :
  split sep (a +:+ String sep b) = split sep a ++ split sep b.
Proof.
  induction a as [|c a IH]; simpl.
  - by rewrite decide_True.
  - destruct (decide (c = sep)); [by rewrite IH|].
    rewrite IH. pose proof (split_not_nil sep a) as Hne.
    by destruct (split sep a).
Qed.

(** The tokens of two paths joined by a slash are the tokens of the
    first followed by the tokens of the second. *)
Theorem tokenize_join (a b : string) :
  InnerPath.tokenize (a +:+ "/" +:+ b)
  = InnerPath.tokenize a ++ InnerPath.tokenize b.
Proof.
  unfold InnerPath.tokenize.
  change ("/" +:+ b) with (String "/" b).
  by rewrite split_app, filter_app, fmap_app.
Qed.

Lemma split_no_sep (sep : ascii) (s seg : string) :
  seg ∈ split sep s → contains sep seg = false.
Proof.
  revert seg. induction s as [|c s IH]; simpl; intros seg Hin.
  - by apply list_elem_of_singleton in Hin as ->.
  - destruct (decide (c = sep)) as [->|Hne].
    + apply elem_of_cons in Hin as [-> | Hin]; [done | by apply IH].
    + pose proof (split_not_nil sep s) as Hnil.
      destruct (split sep s) as [|seg0 segs]; [done|].
      apply elem_of_cons in Hin as [-> | Hin].
      * simpl. rewrite bool_decide_eq_false_2 by done. apply IH. left.
      * apply IH. by right.
Qed.

Lemma contains_lstrip (c : ascii) (s : string) :
  contains c s = false → contains c (lstrip s) = false.
Proof.
  induction s as [|c' s IH]; simpl; [done|].
  intros H. apply orb_false_elim in H as [Hc Hs].
  destruct (is_space c'); [by apply IH|].
  simpl. by rewrite Hc, Hs.
Qed.

Lemma contains_rstrip (c : ascii) (s : string) :
  contains c s = false → contains c (rstrip s) = false.
Proof.
  induction s as [|c' s IH]; simpl; [done|].
  intros H. apply orb_false_elim in H as [Hc Hs]. specialize (IH Hs).
  destruct (rstrip s) as [|c2 r] eqn:Hr.
  - destruct (is_space c'); [done|]. simpl. by rewrite Hc.
  - change (contains c (String c' (String c2 r)) = false).
    simpl in IH |- *. by rewrite Hc, IH.
Qed.

Lemma rstrip_cons_nonempty (c : ascii) (t : string) (c2 : ascii) (r2 : string) :
  rstrip t = String c2 r2 → rstrip (String c t) = String c (String c2 r2).
Proof. intros H. simpl. by rewrite H. Qed.

Lemma rstrip_idempotent (s : string) : rstrip (rstrip s) = rstrip s.
Proof.
  induction s as [|c s IH]; [done|].
  destruct (rstrip s) as [|c2 r] eqn:Hr.
  - simpl. rewrite Hr. destruct (is_space c) eqn:Hc; [done|].
    simpl. by rewrite Hc.
  - rewrite (rstrip_cons_nonempty c s c2 r Hr).
    by apply rstrip_cons_nonempty.
Qed.

Lemma lstrip_head (s : string) :
  lstrip s = "" ∨ ∃ c r, lstrip s = String c r ∧ is_space c = false.
Proof.
  induction s as [|c s IH]; simpl; [by left|].
  destruct (is_space c) eqn:Hc; [done|]. right. by exists c, s.
Qed.

Lemma rstrip_head (c : ascii) (r : string) :
  is_space c = false → ∃ r', rstrip (String c r) = String c r'.
Proof.
  intros Hc. simpl. destruct (rstrip r) as [|c2 r2].
  - rewrite Hc. by eexists.
  - by eexists.
Qed.

Lemma strip_idempotent (s : string) : strip (strip s) = strip s.
Proof.
  unfold strip. destruct (lstrip_head s) as [-> | (c & r & -> & Hc)]; [done|].
  destruct (rstrip_head c r Hc) as [r' Hr']. rewrite Hr'.
  cbn [lstrip]. rewrite Hc. rewrite <- Hr'. apply rstrip_idempotent.
Qed.

(** Every token is stripped (a further [strip] changes nothing) and
    holds no slash. *)
Theorem tokenize_tokens_stripped (inner_path tok : string) :
  tok ∈ InnerPath.tokenize inner_path →
  strip tok = tok ∧ contains "/" tok = false.
Proof.
  unfold InnerPath.tokenize. intros Hin.
  apply list_elem_of_fmap in Hin as (seg & -> & Hseg).
  apply list_elem_of_filter in Hseg as [_ Hseg].
  split; [apply strip_idempotent|].
  unfold strip. apply contains_rstrip, contains_lstrip.
  by apply (split_no_sep _ inner_path).
Qed.

Lemma tokenize_tokens_stripped_witness :
  "bln_rub" ∈ InnerPath.tokenize " bln_rub /2015" ∧
  strip "bln_rub" = "bln_rub" ∧ contains "/" "bln_rub" = false.
Proof.
  assert (H : "bln_rub" ∈ InnerPath.tokenize " bln_rub /2015") by left.
  split; [exact H|].
  exact (tokenize_tokens_stripped _ _ H).
Defined.

Lemma split_only_sep (sep : ascii) (s : string) :
  filter (λ seg : string, seg ≠ "") (split sep s) = [] ↔ only_char sep s = true.
Proof.
  induction s as [|c s IH]; simpl.
  - by rewrite filter_cons_False by (by intros H).
  - destruct (decide (c = sep)) as [->|Hne].
    + rewrite filter_cons_False by (by intros H).
      rewrite bool_decide_eq_true_2 by done. simpl. apply IH.
    + rewrite bool_decide_eq_false_2 by done. simpl.
      pose proof (split_not_nil sep s) as Hnil.
      destruct (split sep s) as [|seg segs]; [done|].
      rewrite filter_cons_True by done. split; discriminate.
Qed.

(** An inner path gives no token at all exactly when it is empty or made
    of slashes only. *)
Theorem tokenize_nil_iff (inner_path : string) :
  InnerPath.tokenize inner_path = [] ↔ only_char "/" inner_path = true.
Proof.
  unfold InnerPath.tokenize. rewrite <- split_only_sep.
  split; [apply fmap_nil_inv | by intros ->].
Qed.

(** ** [CustomGET.make_name] *)

Lemma string_append_assoc (a b c : string) :
  (a +:+ b) +:+ c = a +:+ (b +:+ c).
Proof.
  induction a as [|x a IH]; [done|].
  change (String x ((a +:+ b) +:+ c) = String x (a +:+ (b +:+ c))).
  by f_equal.
Qed.

(** Naming with a unit, then naming the result with a second unit, is
    naming once with the two units joined by an underscore: the series
    name does not tell where the variable name ends. *)
Theorem make_name_nested (varname unit1 unit2 : string) :
  unit1 ≠ "" → unit2 ≠ "" →
  CustomGET.make_name (CustomGET.make_name varname (Some unit1)) (Some unit2)
  = CustomGET.make_name varname (Some (unit1 +:+ "_" +:+ unit2)).
Proof.
  intros H1 H2.
  destruct unit1 as [|c1 u1]; [done|]. destruct unit2 as [|c2 u2]; [done|].
  unfold CustomGET.make_name. cbn [truthy default].
  change (String c1 u1 +:+ "_" +:+ String c2 u2)
    with (String c1 (u1 +:+ "_" +:+ String c2 u2)).
  cbn [truthy default]. unfold id.
  rewrite string_append_assoc. f_equal.
Qed.

Lemma make_name_nested_witness :
  "ALCOHOL" ≠ "" ∧ "rog" ≠ "" ∧
  CustomGET.make_name "CPI_ALCOHOL" (Some "rog")
  = CustomGET.make_name "CPI" (Some "ALCOHOL_rog").
Proof.
  assert (H1 : "ALCOHOL" ≠ "") by discriminate.
  assert (H2 : "rog" ≠ "") by discriminate.
  split; [exact H1|]. split; [exact H2|].
  exact (make_name_nested "CPI" "ALCOHOL" "rog" H1 H2).
Defined.

(** ** C3: which error *)

(** A category step on a list that holds the same values of the category
    as the path: it raises on the values present when the path is
    ambiguous for the category, and returns otherwise. *)
Lemma find_one_on_step (allowed t tokens : list string) :
  allowed ∈ single_valued →
  (∀ p, p ∈ allowed → p ∈ t ↔ p ∈ tokens) →
  (ambiguous allowed tokens →
     TokenHelper._find_one allowed t
     = Raise (CustomError400 (Values (filter (λ p, p ∈ tokens) allowed)))) ∧
  (¬ ambiguous allowed tokens →
     ∃ o rest, TokenHelper._find_one allowed t = Ok (o, rest)).
Proof.
  intros Hcat Hmem.
  pose proof (single_valued_NoDup allowed Hcat) as Hnd.
  pose proof (values_found_same allowed t tokens Hmem) as Hsame.
  split.
  - intros Hamb. apply (ambiguous_values_found allowed tokens Hnd) in Hamb.
    rewrite <- Hsame in Hamb |- *. by apply find_one_ambiguous.
  - intros Hunamb.
    destruct (TokenHelper._find_one allowed t) as [[o rest]|e] eqn:Hrun;
      [by eexists _, _|].
    exfalso. apply Hunamb, (ambiguous_values_found allowed tokens Hnd).
    apply find_one_raise_inv in Hrun as [_ Hlen]. by rewrite <- Hsame.
Qed.

(** C3, as the code has it. With a rate token and an aggregator token in
    the list, in any order, [InnerPath.__init__] raises. What it raises is
    the mutual-exclusion error whenever the steps before the check pass:
    today and the selected year tokens are dates of the calendar, and no
    category has two tokens of different value. Otherwise it is the error
    of the first step that fails: the exception of [get_dates_dict] if
    that raises; else the ambiguity error of the first category, in the
    order finaliser, rate, aggregator, that has two tokens of different
    value, carrying the values of that category present in the list. *)
Theorem C3_rate_and_aggregator (today : date) (tokens : list string) (r a : string) :
  r ∈ ALLOWED_REAL_RATES → r ∈ tokens →
  a ∈ ALLOWED_AGGREGATORS → a ∈ tokens →
  (∃ e, InnerPath.init today tokens = Raise e) ∧
  (today_ok today = true → years_ok tokens →
   (∀ allowed, allowed ∈ single_valued → ¬ ambiguous allowed tokens) →
   InnerPath.init today tokens = Raise mutually_exclusive) ∧
  (∀ e, TokenHelper.get_dates_dict today tokens = Raise e →
        InnerPath.init today tokens = Raise e) ∧
  ((∃ d t1, TokenHelper.get_dates_dict today tokens = Ok (d, t1)) →
   (ambiguous ALLOWED_FINALISERS tokens →
      InnerPath.init today tokens
      = Raise (CustomError400
                 (Values (filter (λ p, p ∈ tokens) ALLOWED_FINALISERS)))) ∧
   (¬ ambiguous ALLOWED_FINALISERS tokens →
    ambiguous ALLOWED_REAL_RATES tokens →
      InnerPath.init today tokens
      = Raise (CustomError400
                 (Values (filter (λ p, p ∈ tokens) ALLOWED_REAL_RATES)))) ∧
   (¬ ambiguous ALLOWED_FINALISERS tokens →
    ¬ ambiguous ALLOWED_REAL_RATES tokens →
    ambiguous ALLOWED_AGGREGATORS tokens →
      InnerPath.init today tokens
      = Raise (CustomError400
                 (Values (filter (λ p, p ∈ tokens) ALLOWED_AGGREGATORS)))) ∧
   (¬ ambiguous ALLOWED_FINALISERS tokens →
    ¬ ambiguous ALLOWED_REAL_RATES tokens →
    ¬ ambiguous ALLOWED_AGGREGATORS tokens →
      InnerPath.init today tokens = Raise mutually_exclusive)).
Proof.
  intros Hr Hrin Ha Hain.
  assert (Hfin : ALLOWED_FINALISERS ∈ single_valued) by left.
  assert (Hrate : ALLOWED_REAL_RATES ∈ single_valued) by (right; left).
  assert (Hagg : ALLOWED_AGGREGATORS ∈ single_valued) by (right; right; left).
  assert (Hsteps : (∃ d t1, TokenHelper.get_dates_dict today tokens = Ok (d, t1)) →
     (ambiguous ALLOWED_FINALISERS tokens →
        InnerPath.init today tokens
        = Raise (CustomError400
                   (Values (filter (λ p, p ∈ tokens) ALLOWED_FINALISERS)))) ∧
     (¬ ambiguous ALLOWED_FINALISERS tokens →
      ambiguous ALLOWED_REAL_RATES tokens →
        InnerPath.init today tokens
        = Raise (CustomError400
                   (Values (filter (λ p, p ∈ tokens) ALLOWED_REAL_RATES)))) ∧
     (¬ ambiguous ALLOWED_FINALISERS tokens →
      ¬ ambiguous ALLOWED_REAL_RATES tokens →
      ambiguous ALLOWED_AGGREGATORS tokens →
        InnerPath.init today tokens
        = Raise (CustomError400
                   (Values (filter (λ p, p ∈ tokens) ALLOWED_AGGREGATORS)))) ∧
     (¬ ambiguous ALLOWED_FINALISERS tokens →
      ¬ ambiguous ALLOWED_REAL_RATES tokens →
      ¬ ambiguous ALLOWED_AGGREGATORS tokens →
        InnerPath.init today tokens = Raise mutually_exclusive)).
  { intros (d & t1 & Hd). rewrite init_unfold, Hd.
    destruct (steps_membership today tokens t1 t1 t1 d None None Hd) as [Hm1 _].
    destruct (find_one_on_step _ t1 tokens Hfin Hm1) as [Hf_amb Hf_ok].
    assert (Hafter_fin : ¬ ambiguous ALLOWED_FINALISERS tokens →
              ∃ f t2, TokenHelper.fin t1 = Ok (f, t2) ∧
                      (∀ p, p ∈ ALLOWED_REAL_RATES → p ∈ t2 ↔ p ∈ tokens)).
    { intros Hun. destruct (Hf_ok Hun) as (f & t2 & Hf). exists f, t2.
      split; [done|].
      destruct (steps_membership today tokens t1 t2 t2 d f None Hd) as [_ Hm].
      by destruct (Hm Hf). }
    assert (Hafter_rate : ¬ ambiguous ALLOWED_FINALISERS tokens →
              ¬ ambiguous ALLOWED_REAL_RATES tokens →
              ∃ f t2 x t3, TokenHelper.fin t1 = Ok (f, t2) ∧
                           TokenHelper.rate t2 = Ok (Some x, t3) ∧
                           truthy (Some x) = true ∧
                           (∀ p, p ∈ ALLOWED_AGGREGATORS → p ∈ t3 ↔ p ∈ tokens)).
    { intros Hun1 Hun2. destruct (Hafter_fin Hun1) as (f & t2 & Hf & Hm2).
      destruct (find_one_on_step _ t2 tokens Hrate Hm2) as [_ Hr_ok].
      destruct (Hr_ok Hun2) as (ro & t3 & Hro).
      destruct (find_one_finds _ _ _ _ r Hro Hr) as (x & -> & Hx);
        [by apply Hm2|].
      exists f, t2, x, t3. split_and!; [done | done | |].
      - by apply (category_value ALLOWED_REAL_RATES).
      - destruct (steps_membership today tokens t1 t2 t3 d f (Some x) Hd) as [_ Hm].
        destruct (Hm Hf) as [_ Hm3]. by apply Hm3. }
    split_and!.
    - intros Hamb. unfold TokenHelper.fin. by rewrite (Hf_amb Hamb).
    - intros Hun1 Hamb. destruct (Hafter_fin Hun1) as (f & t2 & -> & Hm2).
      destruct (find_one_on_step _ t2 tokens Hrate Hm2) as [Hr_amb _].
      unfold TokenHelper.rate. by rewrite (Hr_amb Hamb).
    - intros Hun1 Hun2 Hamb.
      destruct (Hafter_rate Hun1 Hun2) as (f & t2 & x & t3 & -> & -> & _ & Hm3).
      destruct (find_one_on_step _ t3 tokens Hagg Hm3) as [Ha_amb _].
      unfold TokenHelper.agg. by rewrite (Ha_amb Hamb).
    - intros Hun1 Hun2 Hun3.
      destruct (Hafter_rate Hun1 Hun2) as (f & t2 & x & t3 & -> & -> & Hx & Hm3).
      destruct (find_one_on_step _ t3 tokens Hagg Hm3) as [_ Ha_ok].
      destruct (Ha_ok Hun3) as (ao & t4 & Hao).
      destruct (find_one_finds _ _ _ _ a Hao Ha) as (z & -> & Hz);
        [by apply Hm3|].
      unfold TokenHelper.agg. rewrite Hao.
      destruct (category_value ALLOWED_AGGREGATORS z Hagg Hz) as [Hz' _].
      by rewrite Hx, Hz'. }
  split_and!.
  - by apply (rate_and_agg_raise today tokens r a).
  - intros Ht Hyears Hunamb.
    apply Hsteps; [by apply get_dates_dict_ok | by apply Hunamb..].
  - intros e Hd. by rewrite init_unfold, Hd.
  - exact Hsteps.
Qed.

Lemma C3_rate_and_aggregator_witness :
  "yoy" ∈ ALLOWED_REAL_RATES ∧ "yoy" ∈ ["avg"; "2015"; "csv"; "yoy"] ∧
  "avg" ∈ ALLOWED_AGGREGATORS ∧ "avg" ∈ ["avg"; "2015"; "csv"; "yoy"] ∧
  today_ok (mkdate 2017 11 4) = true ∧
  years_ok ["avg"; "2015"; "csv"; "yoy"] ∧
  (∀ allowed, allowed ∈ single_valued →
              ¬ ambiguous allowed ["avg"; "2015"; "csv"; "yoy"]) ∧
  (∃ e, InnerPath.init (mkdate 2017 11 4) ["avg"; "2015"; "csv"; "yoy"] = Raise e) ∧
  InnerPath.init (mkdate 2017 11 4) ["avg"; "2015"; "csv"; "yoy"]
  = Raise mutually_exclusive ∧
  (∃ d t1, TokenHelper.get_dates_dict (mkdate 2017 11 4) ["rog"; "yoy"; "eop"; "avg"]
           = Ok (d, t1)) ∧
  ¬ ambiguous ALLOWED_FINALISERS ["rog"; "yoy"; "eop"; "avg"] ∧
  ambiguous ALLOWED_REAL_RATES ["rog"; "yoy"; "eop"; "avg"] ∧
  InnerPath.init (mkdate 2017 11 4) ["rog"; "yoy"; "eop"; "avg"]
  = Raise (CustomError400 (Values ["rog"; "yoy"])).
Proof.
  assert (H1 : "yoy" ∈ ALLOWED_REAL_RATES) by (right; left).
  assert (H2 : "yoy" ∈ ["avg"; "2015"; "csv"; "yoy"]) by (do 3 right; left).
  assert (H3 : "avg" ∈ ALLOWED_AGGREGATORS) by (right; left).
  assert (H4 : "avg" ∈ ["avg"; "2015"; "csv"; "yoy"]) by left.
  assert (H5 : today_ok (mkdate 2017 11 4) = true) by reflexivity.
  assert (H6 : years_ok ["avg"; "2015"; "csv"; "yoy"]).
  { intros _. change (Forall year_token_ok ["2015"]).
    constructor; [|constructor].
    exists 2015. split; [reflexivity|]. unfold MINYEAR, MAXYEAR. lia. }
  assert (H7 : ∀ allowed, allowed ∈ single_valued →
                          ¬ ambiguous allowed ["avg"; "2015"; "csv"; "yoy"]).
  { intros allowed Hcat (x & y & Hx & Hy & Hxy).
    unfold single_valued in Hcat.
    rewrite !elem_of_cons, elem_of_nil in Hcat.
    destruct Hcat as [-> | [-> | [-> | []]]];
      vm_compute in Hx, Hy;
      apply list_elem_of_singleton in Hx, Hy; congruence. }
  assert (H8 : "yoy" ∈ ["rog"; "yoy"; "eop"; "avg"]) by (right; left).
  assert (H9 : "avg" ∈ ["rog"; "yoy"; "eop"; "avg"]) by (do 3 right; left).
  assert (H10 : ∃ d t1, TokenHelper.get_dates_dict (mkdate 2017 11 4)
                          ["rog"; "yoy"; "eop"; "avg"] = Ok (d, t1))
    by (eexists _, _; vm_compute; reflexivity).
  assert (H11 : ¬ ambiguous ALLOWED_FINALISERS ["rog"; "yoy"; "eop"; "avg"]).
  { intros (x & y & Hx & _). vm_compute in Hx. by apply elem_of_nil in Hx. }
  assert (H12 : ambiguous ALLOWED_REAL_RATES ["rog"; "yoy"; "eop"; "avg"]).
  { exists "rog", "yoy". split_and!; [left | right; left | discriminate]. }
  pose proof (C3_rate_and_aggregator (mkdate 2017 11 4) _ _ _ H1 H2 H3 H4)
    as (Hfail & Hmutex & _).
  pose proof (C3_rate_and_aggregator (mkdate 2017 11 4) _ _ _ H1 H8 H3 H9)
    as (_ & _ & _ & Hsteps).
  destruct (Hsteps H10) as (_ & Hrates & _).
  split_and!; try assumption.
  - exact (Hmutex H5 H6 H7).
  - exact (Hrates H11 H12).
Defined.
